(** * Hope UI: checkable-input state resolution and keyboard helpers

    A shallow embedding of the interactive logic of
    - [createKeyboard]            (keyboard helper),
    - [SwitchPrimitive]           (switch button, its store and [onClick]),
    - [useSwitcPrimitivehContext] (context accessor),
    - [Checkbox]                  (checked resolution, attributes, [onChange]).

    Component closures become functions of the props, of the contexts found
    in the owner chain and of the component's private state.  Event handlers
    run in a small monad that threads the private state, records every
    observable effect in a trace and propagates a thrown exception. *)

From Stdlib Require Import Bool List String ZArith Lia DecimalString.
Import ListNotations.
Local Open Scope string_scope.
Local Open Scope list_scope.

Set Implicit Arguments.

(* ------------------------------------------------------------------------- *)
(** ** JavaScript values and operators used by the components *)
(* ------------------------------------------------------------------------- *)

Module JS.

(** A value of type [T | undefined] is an [option T]; [None] is
    [undefined] (or [null], which the code never tells apart: it only
    uses [??], [?.], [!= null] and truthiness on such values). *)

(** [!!b] for [b : boolean | undefined]. *)
Definition truthy (b : option bool) : bool :=
  match b with
  | Some true => true
  | _ => false
  end.

(** [a ?? b]. *)
Definition nullish {A : Type} (a b : option A) : option A :=
  match a with
  | Some _ => a
  | None => b
  end.

(** [o?.f] where the field [f] may itself be undefined. *)
Definition chain {A B : Type} (o : option A) (f : A -> option B) : option B :=
  match o with
  | Some x => f x
  | None => None
  end.

(** JavaScript numbers are IEEE doubles; the components only ever pass
    them to [String].  The number type and its [String] conversion are an
    interface. *)
Class Number : Type := {
    num : Type;
    numToString : num -> string
  }.

(** [string | number]. *)
Inductive prim {N : Number} : Type :=
  | PStr (s : string)
  | PNum (n : num).

(** [String(v)] for [v : string | number | undefined]. *)
Definition String_ {N : Number} (v : option prim) : string :=
  match v with
  | None => "undefined"
  | Some (PStr s) => s
  | Some (PNum n) => numToString n
  end.

(** [new Error(message)]. *)
Record Error : Type := { message : string }.

(** How a call ends: it returns a value or throws. *)
Inductive Completion (A : Type) : Type :=
  | Normal (a : A)
  | Throw (e : Error).
Arguments Throw {A} e.

End JS.

Import JS.
Notation "a ?? b" := (JS.nullish a b) (at level 61, right associativity).

(** Integer-valued numbers with their decimal rendering: [String(12)] is
    ["12"], [String(-3)] is ["-3"]. *)
Definition IntegerNumber : Number :=
  {| num := Z; numToString := fun z => NilZero.string_of_int (Z.to_int z) |}.

(* ------------------------------------------------------------------------- *)
(** ** Effects of an event handler *)
(* ------------------------------------------------------------------------- *)

(** The places a user-supplied callback can come from. *)
Inductive Slot : Type :=
| GroupOnChange      (* checkboxGroupContext.onChange *)
| ItemOnChange       (* local.onChange *)
| ItemOnClick        (* local.onClick *)
| PropsOnKeyDown     (* props.onKeyDown *)
| PropsOnKeyUp.      (* props.onKeyUp *)

(** What a handler does that the outside can observe, in program order.
    [Arg] is the type of the values passed to callbacks. *)
Inductive Effect (Arg : Type) : Type :=
| EPreventDefault                          (* event.preventDefault() *)
| ESet (field : string) (b : bool)         (* a write to the private state *)
| ECall (s : Slot) (a : Arg).              (* a callback is invoked on [a] *)
Arguments EPreventDefault {Arg}.
Arguments ESet {Arg} field b.

(** A user-supplied callback is opaque: all the model knows of a call is
    that it happened and whether it returned or threw. *)
Definition Handler (A : Type) : Type := A -> Completion unit.

Section Monad.
Variables (St Arg : Type).

(** A computation on private state [St]: completion, final state, trace. *)
Definition M (A : Type) : Type :=
  St -> Completion A * St * list (Effect Arg).

Definition ret {A : Type} (a : A) : M A :=
  fun s => (Normal a, s, []).

Definition bind {A B : Type} (m : M A) (k : A -> M B) : M B :=
  fun s =>
    match m s with
    | (Normal a, s1, t1) =>
        match k a s1 with
        | (r, s2, t2) => (r, s2, t1 ++ t2)
        end
    | (Throw e, s1, t1) => (Throw e, s1, t1)
    end.

Definition emit (x : Effect Arg) : M unit :=
  fun s => (Normal tt, s, [x]).

Definition get : M St :=
  fun s => (Normal s, s, []).

(** A write to the private state, recorded in the trace. *)
Definition set (field : string) (b : bool) (upd : St -> St) : M unit :=
  fun s => (Normal tt, upd s, [ESet field b]).

(** [event.preventDefault()]. *)
Definition preventDefault : M unit := emit EPreventDefault.

(** [h(a)] for a callback [h] that is known to be a function. *)
Definition call {A : Type} (inj : A -> Arg) (sl : Slot) (h : Handler A) (a : A)
  : M unit :=
  fun s => (h a, s, [ECall sl (inj a)]).

(** [h?.(a)]. *)
Definition optcall {A : Type} (inj : A -> Arg) (sl : Slot)
    (h : option (Handler A)) (a : A) : M unit :=
  match h with
  | Some f => call inj sl f a
  | None => ret tt
  end.

Definition completion {A : Type} (r : Completion A * St * list (Effect Arg))
  : Completion A := fst (fst r).
Definition final {A : Type} (r : Completion A * St * list (Effect Arg))
  : St := snd (fst r).
Definition trace {A : Type} (r : Completion A * St * list (Effect Arg))
  : list (Effect Arg) := snd r.

End Monad.

Arguments ret {St Arg A} a.
Arguments bind {St Arg A B} m k.
Arguments emit {St Arg} x.
Arguments get {St Arg}.
Arguments set {St Arg} field b upd.
Arguments preventDefault {St Arg}.
Arguments call {St Arg A} inj sl h a.
Arguments optcall {St Arg A} inj sl h a.
Arguments completion {St Arg A} r.
Arguments final {St Arg A} r.
Arguments trace {St Arg A} r.

Notation "x <- m ;; k" := (bind m (fun x => k))
  (at level 62, m at next level, right associativity).
Notation "m ;; k" := (bind m (fun _ => k))
  (at level 62, right associativity).

(** Trace queries. *)
Definition isCall {Arg : Type} (x : Effect Arg) : bool :=
  match x with ECall _ _ => true | _ => false end.

Definition isSet {Arg : Type} (x : Effect Arg) : bool :=
  match x with ESet _ _ => true | _ => false end.

(** The callbacks invoked, in order. *)
Definition calls {Arg : Type} (t : list (Effect Arg)) : list (Effect Arg) :=
  filter isCall t.

(** The writes to the private state, in order. *)
Definition writes {Arg : Type} (t : list (Effect Arg)) : list (Effect Arg) :=
  filter isSet t.

(* ------------------------------------------------------------------------- *)
(** ** createKeyboard *)
(* ------------------------------------------------------------------------- *)

Module Keyboard.

Record KeyboardEvent : Type := { key : string }.

Module CreateKeyboardProps.
Record t : Type := {
    isDisabled : option bool;
    onKeyDown : option (Handler KeyboardEvent);
    onKeyUp : option (Handler KeyboardEvent)
  }.
End CreateKeyboardProps.
Import CreateKeyboardProps.

(** The helper keeps no state of its own. *)
Definition K : Type -> Type := M unit KeyboardEvent.

Definition onKeyDown (props : CreateKeyboardProps.t) (event : KeyboardEvent)
  : K unit :=
  if truthy (isDisabled props) then ret tt
  else optcall (fun e => e) PropsOnKeyDown (CreateKeyboardProps.onKeyDown props) event.

Definition onKeyUp (props : CreateKeyboardProps.t) (event : KeyboardEvent)
  : K unit :=
  if truthy (isDisabled props) then ret tt
  else optcall (fun e => e) PropsOnKeyUp (CreateKeyboardProps.onKeyUp props) event.

Module keyboardElementProps.
Record t : Type := {
    onKeyDown : KeyboardEvent -> K unit;
    onKeyUp : KeyboardEvent -> K unit
  }.
End keyboardElementProps.

Record KeyboardResult : Type := {
    keyboardProps : unit -> keyboardElementProps.t
  }.

Definition createKeyboard (props : CreateKeyboardProps.t) : KeyboardResult :=
  {| keyboardProps := fun _ =>
       {| keyboardElementProps.onKeyDown := onKeyDown props;
          keyboardElementProps.onKeyUp := onKeyUp props |} |}.

End Keyboard.

(* ------------------------------------------------------------------------- *)
(** ** Helpers of the repository that the components import *)
(* ------------------------------------------------------------------------- *)

Module FormControl.

(** The fields a control shares with an enclosing form control. *)
Record Fields : Type := {
    id : option string;
    required : option bool;
    disabled : option bool;
    invalid : option bool;
    readOnly : option bool
  }.

Definition noFields : Fields :=
  {| id := None; required := None; disabled := None; invalid := None;
     readOnly := None |}.

(** Modelled from the spec: [useFormControl] (imported from
    [../form-control/use-form-control], which is not among the sources).
    The enclosing form control, when there is one, supplies ambient
    [id], [required], [disabled], [invalid] and [readOnly] defaults, and
    each is overridable per instance: the explicit prop comes first. *)
Definition useFormControl (formControl : option Fields) (props : Fields)
  : Fields :=
  {| id := id props ?? chain formControl id;
     required := required props ?? chain formControl required;
     disabled := disabled props ?? chain formControl disabled;
     invalid := invalid props ?? chain formControl invalid;
     readOnly := readOnly props ?? chain formControl readOnly |}.

End FormControl.

Section Function.
Variables (St Arg A : Type) (inj : A -> Arg).

(** Modelled from the spec: [callHandler] (imported from
    [utils/function], which is not among the sources).  A missing optional
    callback is a safe no-op; a present one is called on the event. *)
Definition callHandler (sl : Slot) (handler : option (Handler A)) (event : A)
  : M St Arg unit :=
  optcall inj sl handler event.

(** Modelled from the spec: [callAllHandlers] (imported from
    [@/utils/function], which is not among the sources).  The handlers
    are invoked in the order of the arguments, a missing one is skipped,
    and nothing is promised after one of them throws. *)
Fixpoint callAllHandlers (fns : list (Slot * option (Handler A))) (event : A)
  : M St Arg unit :=
  match fns with
  | [] => ret tt
  | (sl, fn) :: rest =>
      optcall inj sl fn event ;; callAllHandlers rest event
  end.

End Function.

Arguments callHandler {St Arg A} inj sl handler event.
Arguments callAllHandlers {St Arg A} inj fns event.

(* ------------------------------------------------------------------------- *)
(** ** Rendered attributes *)
(* ------------------------------------------------------------------------- *)

(** The value of a JSX attribute expression. *)
Inductive AttrVal : Type :=
| AUndefined
| ABool (b : bool)
| AStr (s : string).

Definition ofBool (b : option bool) : AttrVal :=
  match b with Some x => ABool x | None => AUndefined end.

Definition ofStr (s : option string) : AttrVal :=
  match s with Some x => AStr x | None => AUndefined end.

Definition Attrs : Type := list (string * AttrVal).

(** The attribute as it reaches the element: an attribute that is not
    written on the tag, or whose expression is [undefined], is omitted. *)
Fixpoint emitted (attrs : Attrs) (name : string) : option AttrVal :=
  match attrs with
  | [] => None
  | (n, v) :: rest =>
      if String.eqb n name then
        match v with
        | AUndefined => None
        | _ => Some v
        end
      else emitted rest name
  end.

(* ------------------------------------------------------------------------- *)
(** ** SwitchPrimitive *)
(* ------------------------------------------------------------------------- *)

Module Switch.

Record MouseEvent : Type := { button : nat }.

(** What the switch passes to callbacks: the new checked value to
    [onChange], the event to [onClick]. *)
Inductive Arg : Type :=
  | AChecked (b : bool)
  | AMouse (e : MouseEvent).

Module SwitchPrimitiveOptions.
Record t : Type := {
    id : option string;
    name : option string;
    value : option string;
    checked : option bool;
    defaultChecked : option bool;
    required : option bool;
    disabled : option bool;
    invalid : option bool;
    readOnly : option bool;
    onChange : option (Handler bool);
    onClick : option (Handler MouseEvent)
  }.
End SwitchPrimitiveOptions.
Definition Props : Type := SwitchPrimitiveOptions.t.

(** The part of the props that [useFormControl] reads. *)
Definition formFields (props : Props) : FormControl.Fields :=
  {| FormControl.id := SwitchPrimitiveOptions.id props;
     FormControl.required := SwitchPrimitiveOptions.required props;
     FormControl.disabled := SwitchPrimitiveOptions.disabled props;
     FormControl.invalid := SwitchPrimitiveOptions.invalid props;
     FormControl.readOnly := SwitchPrimitiveOptions.readOnly props |}.

(** The two plain fields of the store; every other field of
    [SwitchPrimitiveState] is a getter over them and the props. *)
Record Store : Type := {
    _checked : bool;
    isFocused : bool
  }.

(** What a component instance closes over. *)
Record Instance : Type := {
    props : Props;
    formControl : option FormControl.Fields;   (* enclosing form control *)
    defaultId : string                         (* hope-switch-<unique id> *)
  }.

Definition formControlProps (c : Instance) : FormControl.Fields :=
  FormControl.useFormControl (formControl c) (formFields (props c)).

(** [createStore({ _checked: !!props.defaultChecked, isFocused: false, ... })]. *)
Definition createStore (c : Instance) : Store :=
  {| _checked := truthy (SwitchPrimitiveOptions.defaultChecked (props c));
     isFocused := false |}.

(** The getters of the store, under the names of the source. *)
Module state.
Definition isControlled (c : Instance) (s : Store) : bool :=
  match SwitchPrimitiveOptions.checked (props c) with
  | Some _ => true
  | None => false
  end.

Definition checked (c : Instance) (s : Store) : bool :=
  if isControlled c s then truthy (SwitchPrimitiveOptions.checked (props c))
  else _checked s.

Definition id (c : Instance) (s : Store) : option string :=
  FormControl.id (formControlProps c) ?? Some (defaultId c).

Definition name (c : Instance) (s : Store) : option string :=
  SwitchPrimitiveOptions.name (props c).

Definition value (c : Instance) (s : Store) : option string :=
  SwitchPrimitiveOptions.value (props c) ?? Some "on".

Definition required (c : Instance) (s : Store) : option bool :=
  FormControl.required (formControlProps c).

Definition disabled (c : Instance) (s : Store) : option bool :=
  FormControl.disabled (formControlProps c).

Definition invalid (c : Instance) (s : Store) : option bool :=
  FormControl.invalid (formControlProps c).

Definition readOnly (c : Instance) (s : Store) : option bool :=
  FormControl.readOnly (formControlProps c).

Definition aria_required (c : Instance) (s : Store) : option bool :=
  if truthy (required c s) then Some true else None.

Definition aria_disabled (c : Instance) (s : Store) : option bool :=
  if truthy (disabled c s) then Some true else None.

Definition aria_invalid (c : Instance) (s : Store) : option bool :=
  if truthy (invalid c s) then Some true else None.

Definition aria_readonly (c : Instance) (s : Store) : option bool :=
  if truthy (readOnly c s) then Some true else None.

Definition data_focus (c : Instance) (s : Store) : option string :=
  if isFocused s then Some "" else None.

Definition data_checked (c : Instance) (s : Store) : option string :=
  if checked c s then Some "" else None.

Definition data_required (c : Instance) (s : Store) : option string :=
  if truthy (required c s) then Some "" else None.

Definition data_disabled (c : Instance) (s : Store) : option string :=
  if truthy (disabled c s) then Some "" else None.

Definition data_invalid (c : Instance) (s : Store) : option string :=
  if truthy (invalid c s) then Some "" else None.

Definition data_readonly (c : Instance) (s : Store) : option string :=
  if truthy (readOnly c s) then Some "" else None.
End state.

Definition S : Type -> Type := M Store Arg.

(** [setState("_checked", newValue)]. *)
Definition setState_checked (newValue : bool) : S unit :=
  set "_checked" newValue
    (fun s => {| _checked := newValue; isFocused := isFocused s |}).

Definition onClick (c : Instance) (event : MouseEvent) : S unit :=
  s <- get ;;
  if truthy (state.readOnly c s) || truthy (state.disabled c s) then
    preventDefault
  else
    let newValue := negb (state.checked c s) in
    (if negb (state.isControlled c s) then setState_checked newValue
     else ret tt) ;;
    optcall AChecked ItemOnChange
      (SwitchPrimitiveOptions.onChange (props c)) newValue ;;
    callHandler AMouse ItemOnClick
      (SwitchPrimitiveOptions.onClick (props c)) event.

(** The attributes written on [<hope.button>], in source order (the
    handlers and the spread of the remaining props are left out). *)
Definition buttonAttrs (c : Instance) (s : Store) : Attrs :=
  [ ("type", AStr "button");
    ("role", AStr "switch");
    ("value", ofStr (state.value c s));
    ("id", ofStr (state.id c s));
    ("name", ofStr (state.name c s));
    ("disabled", ofBool (state.disabled c s));
    ("aria-checked", ABool (state.checked c s));
    ("aria-required", ofBool (state.aria_required c s));
    ("aria-disabled", ofBool (state.aria_disabled c s));
    ("aria-invalid", ofBool (state.aria_invalid c s));
    ("aria-readonly", ofBool (state.aria_readonly c s)) ].

(** *** Context *)

(** [SwitchPrimitiveContextValue]: the store of the providing switch. *)
Record SwitchPrimitiveContextValue : Type := {
    ctx_instance : Instance;
    ctx_state : Store
  }.

(** The providers above the caller in the component tree, nearest
    first.  Providers of other contexts are transparent to the lookup. *)
Inductive Provider : Type :=
  | SwitchPrimitiveContext_Provider (value : SwitchPrimitiveContextValue)
  | OtherProvider.

Definition Owner : Type := list Provider.

(** [useContext(SwitchPrimitiveContext)]: the context was created without
    a default value, so the lookup is [undefined] when no provider
    encloses the caller. *)
Fixpoint useContext (owner : Owner) : option SwitchPrimitiveContextValue :=
  match owner with
  | [] => None
  | SwitchPrimitiveContext_Provider v :: _ => Some v
  | OtherProvider :: up => useContext up
  end.

Definition useSwitcPrimitivehContext (owner : Owner)
  : Completion SwitchPrimitiveContextValue :=
  match useContext owner with
  | None =>
      Throw {| message :=
        "[Hope UI]: useSwitcPrimitivehContext must be used within a `<SwitchPrimitive />` component" |}
  | Some context => Normal context
  end.

(** The store after a sequence of clicks, oldest first.  Each event is
    dispatched on its own: a callback that throws does not undo the write
    made before it. *)
Definition afterClicks (c : Instance) (events : list MouseEvent) (s : Store)
  : Store :=
  fold_left (fun s1 e => final (onClick c e s1)) events s.

(** What the children of a rendered switch see above them. *)
Definition render_owner (c : Instance) (s : Store) (owner : Owner) : Owner :=
  SwitchPrimitiveContext_Provider {| ctx_instance := c; ctx_state := s |}
    :: owner.

End Switch.

(* ------------------------------------------------------------------------- *)
(** ** Checkbox *)
(* ------------------------------------------------------------------------- *)

(** [<Switch>] with [<Match when=...>] children renders the first child
    whose condition holds, and nothing when none does. *)
Fixpoint Switch_Match {A : Type} (matches : list (bool * A)) : option A :=
  match matches with
  | [] => None
  | (when, child) :: rest => if when then Some child else Switch_Match rest
  end.

Module Checkbox.

(** The change event of the input; the handler reads [event.target.checked]. *)
Record ChangeEvent : Type := { target_checked : bool }.

(** The icon shown inside the control. *)
Inductive Icon : Type :=
| CheckboxIconCheck
| CheckboxIconIndeterminate
| CustomIcon (name : string).

(** What [useCheckboxGroupContext] gives: the store of the enclosing
    group (styling fields left out) and the group's change handler. *)
Module CheckboxGroup.
Record State {N : Number} : Type := {
  value : option (list prim);
  name : option string;
  required : option bool;
  disabled : option bool;
  invalid : option bool;
  readOnly : option bool
}.
Record Context {N : Number} : Type := {
  state : State;
  onChange : option (Handler ChangeEvent)
}.
End CheckboxGroup.

Module CheckboxOptions.
Record t {N : Number} : Type := {
  iconChecked : option Icon;
  iconIndeterminate : option Icon;
  id : option string;
  name : option string;
  value : option prim;
  checked : option bool;
  defaultChecked : option bool;
  indeterminate : option bool;
  required : option bool;
  disabled : option bool;
  readOnly : option bool;
  invalid : option bool;
  onChange : option (Handler ChangeEvent)
}.
End CheckboxOptions.

Section WithNumber.
Context {N : Number}.

Definition Props : Type := CheckboxOptions.t.

(** What a component instance closes over. *)
Record Instance : Type := {
  props : Props;
  checkboxGroupContext : option CheckboxGroup.Context;
  formControl : option FormControl.Fields;
  defaultId : string                          (* hope-checkbox-<unique id> *)
}.

(** [splitProps]: [local] and [inputProps] are views of the props; the
    model reads the fields from the props directly. *)
Definition local (c : Instance) : Props := props c.
Definition inputProps (c : Instance) : Props := props c.

(** [mergeProps(defaultProps, props)] for the two icons. *)
Definition iconChecked (c : Instance) : Icon :=
  match CheckboxOptions.iconChecked (local c) with
  | Some i => i
  | None => CheckboxIconCheck
  end.

Definition iconIndeterminate (c : Instance) : Icon :=
  match CheckboxOptions.iconIndeterminate (local c) with
  | Some i => i
  | None => CheckboxIconIndeterminate
  end.

Definition formFields (p : Props) : FormControl.Fields :=
  {| FormControl.id := CheckboxOptions.id p;
     FormControl.required := CheckboxOptions.required p;
     FormControl.disabled := CheckboxOptions.disabled p;
     FormControl.invalid := CheckboxOptions.invalid p;
     FormControl.readOnly := CheckboxOptions.readOnly p |}.

Definition formControlProps (c : Instance) : FormControl.Fields :=
  FormControl.useFormControl (formControl c) (formFields (inputProps c)).

(** [checkboxGroupContext?.state.f]. *)
Definition groupState {A : Type} (c : Instance)
    (f : CheckboxGroup.State -> option A) : option A :=
  chain (checkboxGroupContext c) (fun g => f (CheckboxGroup.state g)).

Definition id (c : Instance) : option string :=
  FormControl.id (formControlProps c) ?? Some (defaultId c).

Definition name (c : Instance) : option string :=
  CheckboxOptions.name (inputProps c) ?? groupState c CheckboxGroup.name.

Definition required (c : Instance) : option bool :=
  FormControl.required (formControlProps c) ?? groupState c CheckboxGroup.required.

Definition disabled (c : Instance) : option bool :=
  FormControl.disabled (formControlProps c) ?? groupState c CheckboxGroup.disabled.

Definition invalid (c : Instance) : option bool :=
  FormControl.invalid (formControlProps c) ?? groupState c CheckboxGroup.invalid.

Definition readOnly (c : Instance) : option bool :=
  FormControl.readOnly (formControlProps c) ?? groupState c CheckboxGroup.readOnly.

(** The signal [checkedState]: internal state of an uncontrolled checkbox. *)
Record Store : Type := { checkedState : bool }.

(** [createSignal(!!local.defaultChecked)]. *)
Definition createSignal (c : Instance) : Store :=
  {| checkedState := truthy (CheckboxOptions.defaultChecked (local c)) |}.

Definition isControlled (c : Instance) : bool :=
  match CheckboxOptions.checked (local c) with
  | Some _ => true
  | None => false
  end.

(** [checked()]: a boolean, or [undefined]. *)
Definition checked (c : Instance) (s : Store) : option bool :=
  match checkboxGroupContext c with
  | Some ctx =>
      match CheckboxGroup.value (CheckboxGroup.state ctx) with
      | Some checkboxGroupValue =>
          Some (existsb
                  (fun val =>
                     String.eqb (String_ (CheckboxOptions.value (inputProps c)))
                                (String_ (Some val)))
                  checkboxGroupValue)
      | None => None
      end
  | None =>
      (* Not in CheckboxGroup *)
      Some (if isControlled c then truthy (CheckboxOptions.checked (local c))
            else checkedState s)
  end.


Definition ariaRequired (c : Instance) : option bool :=
  if truthy (required c) then Some true else None.
Definition ariaDisabled (c : Instance) : option bool :=
  if truthy (disabled c) then Some true else None.
Definition ariaInvalid (c : Instance) : option bool :=
  if truthy (invalid c) then Some true else None.
Definition ariaReadonly (c : Instance) : option bool :=
  if truthy (readOnly c) then Some true else None.

Definition S : Type -> Type := M Store ChangeEvent.

(** [setCheckedState(b)]. *)
Definition setCheckedState (b : bool) : S unit :=
  set "checkedState" b (fun _ => {| checkedState := b |}).

Definition onChange (c : Instance) (event : ChangeEvent) : S unit :=
  if truthy (CheckboxOptions.readOnly (inputProps c))
     || truthy (CheckboxOptions.disabled (inputProps c)) then
    preventDefault
  else
    (if negb (isControlled c) then setCheckedState (target_checked event)
     else ret tt) ;;
    callAllHandlers (fun e => e)
      [ (GroupOnChange, chain (checkboxGroupContext c) CheckboxGroup.onChange);
        (ItemOnChange, CheckboxOptions.onChange (local c)) ]
      event.

(** The test of the guard clause of [onChange]. *)
Definition guard (c : Instance) : bool :=
  truthy (CheckboxOptions.readOnly (inputProps c))
  || truthy (CheckboxOptions.disabled (inputProps c)).

(** The callbacks [onChange] hands the event to, in the order written. *)
Definition handlers (c : Instance) : list (Slot * option (Handler ChangeEvent)) :=
  [ (GroupOnChange, chain (checkboxGroupContext c) CheckboxGroup.onChange);
    (ItemOnChange, CheckboxOptions.onChange (local c)) ].

(** The attributes written on the [<input>], in source order (the ref, the
    class, [tabIndex], the labelling attributes and the focus handlers are
    left out). *)
Definition inputAttrs (c : Instance) (s : Store) : Attrs :=
  [ ("type", AStr "checkbox");
    ("id", ofStr (id c));
    ("value", match CheckboxOptions.value (inputProps c) with
              | Some v => AStr (String_ (Some v))
              | None => AUndefined
              end);
    ("name", ofStr (name c));
    ("checked", ofBool (checked c s));
    ("required", ofBool (required c));
    ("disabled", ofBool (disabled c));
    ("readOnly", ofBool (readOnly c));
    ("aria-required", ofBool (ariaRequired c));
    ("aria-disabled", ofBool (ariaDisabled c));
    ("aria-invalid", ofBool (ariaInvalid c));
    ("aria-readonly", ofBool (ariaReadonly c)) ].


(** The icon inside the control: the [<Switch>] of the two [<Match>]es. *)
Definition controlIcon (c : Instance) (s : Store) : option Icon :=
  Switch_Match
    [ (truthy (CheckboxOptions.indeterminate (inputProps c)),
       iconIndeterminate c);
      (truthy (checked c s)
         && negb (truthy (CheckboxOptions.indeterminate (inputProps c))),
       iconChecked c) ].

(** The same instance with another [indeterminate] prop. *)
Definition withIndeterminate (i : option bool) (c : Instance) : Instance :=
  let p := props c in
  {| props :=
       {| CheckboxOptions.iconChecked := CheckboxOptions.iconChecked p;
          CheckboxOptions.iconIndeterminate := CheckboxOptions.iconIndeterminate p;
          CheckboxOptions.id := CheckboxOptions.id p;
          CheckboxOptions.name := CheckboxOptions.name p;
          CheckboxOptions.value := CheckboxOptions.value p;
          CheckboxOptions.checked := CheckboxOptions.checked p;
          CheckboxOptions.defaultChecked := CheckboxOptions.defaultChecked p;
          CheckboxOptions.indeterminate := i;
          CheckboxOptions.required := CheckboxOptions.required p;
          CheckboxOptions.disabled := CheckboxOptions.disabled p;
          CheckboxOptions.readOnly := CheckboxOptions.readOnly p;
          CheckboxOptions.invalid := CheckboxOptions.invalid p;
          CheckboxOptions.onChange := CheckboxOptions.onChange p |};
     checkboxGroupContext := checkboxGroupContext c;
     formControl := formControl c;
     defaultId := defaultId c |}.

(** A user toggles the rendered input: the browser flips the checkedness
    the input was rendered with ([checked={checked()}]) and dispatches the
    change event, whose target carries the flipped value. *)
Definition userToggle (c : Instance) (s : Store) : ChangeEvent :=
  {| target_checked := negb (truthy (checked c s)) |}.

(** The store after one user toggle, and after [n] of them.  Each event is
    dispatched on its own: a callback that throws does not undo the write
    made before it. *)
Definition afterToggle (c : Instance) (s : Store) : Store :=
  final (onChange c (userToggle c s) s).

Fixpoint afterToggles (c : Instance) (n : nat) (s : Store) : Store :=
  match n with
  | O => s
  | Datatypes.S k => afterToggle c (afterToggles c k s)
  end.

End WithNumber.

End Checkbox.

(* ------------------------------------------------------------------------- *)
(** ** Sample instances *)
(* ------------------------------------------------------------------------- *)

Module Samples.

(** A callback that returns, and one that throws. *)
Definition returns {A : Type} : Handler A := fun _ => Normal tt.
Definition throws {A : Type} : Handler A :=
  fun _ => Throw {| message := "boom" |}.

(** [<Checkbox value=v checked=chk defaultChecked=dflt onChange=h />]. *)
Definition checkboxProps (v : option (@prim IntegerNumber))
    (chk dflt : option bool) (h : option (Handler Checkbox.ChangeEvent))
  : @Checkbox.Props IntegerNumber :=
  {| Checkbox.CheckboxOptions.iconChecked := None;
     Checkbox.CheckboxOptions.iconIndeterminate := None;
     Checkbox.CheckboxOptions.id := None;
     Checkbox.CheckboxOptions.name := None;
     Checkbox.CheckboxOptions.value := v;
     Checkbox.CheckboxOptions.checked := chk;
     Checkbox.CheckboxOptions.defaultChecked := dflt;
     Checkbox.CheckboxOptions.indeterminate := None;
     Checkbox.CheckboxOptions.required := None;
     Checkbox.CheckboxOptions.disabled := None;
     Checkbox.CheckboxOptions.readOnly := None;
     Checkbox.CheckboxOptions.invalid := None;
     Checkbox.CheckboxOptions.onChange := h |}.

(** [<CheckboxGroup value=vs readOnly=ro onChange=h>]. *)
Definition group (vs : option (list (@prim IntegerNumber))) (ro : option bool)
    (h : option (Handler Checkbox.ChangeEvent))
  : @Checkbox.CheckboxGroup.Context IntegerNumber :=
  {| Checkbox.CheckboxGroup.state :=
       {| Checkbox.CheckboxGroup.value := vs;
          Checkbox.CheckboxGroup.name := None;
          Checkbox.CheckboxGroup.required := None;
          Checkbox.CheckboxGroup.disabled := None;
          Checkbox.CheckboxGroup.invalid := None;
          Checkbox.CheckboxGroup.readOnly := ro |};
     Checkbox.CheckboxGroup.onChange := h |}.

(** A checkbox with the given props, inside the given group (if any) and
    outside any form control. *)
Definition checkbox (p : @Checkbox.Props IntegerNumber)
    (g : option (@Checkbox.CheckboxGroup.Context IntegerNumber))
  : @Checkbox.Instance IntegerNumber :=
  {| Checkbox.props := p;
     Checkbox.checkboxGroupContext := g;
     Checkbox.formControl := None;
     Checkbox.defaultId := "hope-checkbox-1" |}.

(** [<SwitchPrimitive checked=chk defaultChecked=dflt readOnly=ro
    onChange=h />] outside any form control. *)
Definition switch (chk dflt ro : option bool) (h : option (Handler bool))
  : Switch.Instance :=
  {| Switch.props :=
       {| Switch.SwitchPrimitiveOptions.id := None;
          Switch.SwitchPrimitiveOptions.name := None;
          Switch.SwitchPrimitiveOptions.value := None;
          Switch.SwitchPrimitiveOptions.checked := chk;
          Switch.SwitchPrimitiveOptions.defaultChecked := dflt;
          Switch.SwitchPrimitiveOptions.required := None;
          Switch.SwitchPrimitiveOptions.disabled := None;
          Switch.SwitchPrimitiveOptions.invalid := None;
          Switch.SwitchPrimitiveOptions.readOnly := ro;
          Switch.SwitchPrimitiveOptions.onChange := h;
          Switch.SwitchPrimitiveOptions.onClick := None |};
     Switch.formControl := None;
     Switch.defaultId := "hope-switch-1" |}.

Definition click : Switch.MouseEvent := {| Switch.button := 0 |}.

Definition keyA : Keyboard.KeyboardEvent := {| Keyboard.key := "a" |}.

Definition keyboardProps (dis : option bool)
    (down up : option (Handler Keyboard.KeyboardEvent))
  : Keyboard.CreateKeyboardProps.t :=
  {| Keyboard.CreateKeyboardProps.isDisabled := dis;
     Keyboard.CreateKeyboardProps.onKeyDown := down;
     Keyboard.CreateKeyboardProps.onKeyUp := up |}.

End Samples.

(* ------------------------------------------------------------------------- *)
(** ** Focus handlers of the switch and sequences of events *)
(* ------------------------------------------------------------------------- *)

Module SwitchFocus.
Import Switch.

Record FocusEvent : Type := { relatedTarget : option string }.

(** The two callbacks the focus handlers pass the event on to. *)
Inductive FocusSlot : Type :=
| FormOnFocus        (* formControlProps.onFocus *)
| FormOnBlur.        (* formControlProps.onBlur *)

(** What a focus handler does, in program order. *)
Inductive FocusEffect : Type :=
| FSet (field : string) (b : bool)
| FCall (sl : FocusSlot) (e : FocusEvent).

(** [formControlProps.onFocus] and [formControlProps.onBlur], as
    [useFormControl] returns them; either may be missing. *)
Record FocusHandlers : Type := {
  formOnFocus : option (Handler FocusEvent);
  formOnBlur : option (Handler FocusEvent)
}.

(** [setState("isFocused", b)]. *)
Definition setState_isFocused (b : bool) (s : Store) : Store :=
  {| _checked := _checked s; isFocused := b |}.

(** [callHandler(h)(event)] after the write: completion and trace. *)
Definition thenCall (sl : FocusSlot) (h : option (Handler FocusEvent))
    (event : FocusEvent) (b : bool) (s : Store)
  : Completion unit * Store * list FocusEffect :=
  match h with
  | Some f => (f event, s, [FSet "isFocused" b; FCall sl event])
  | None => (Normal tt, s, [FSet "isFocused" b])
  end.

Definition onFocus (fh : FocusHandlers) (event : FocusEvent) (s : Store)
  : Completion unit * Store * list FocusEffect :=
  thenCall FormOnFocus (formOnFocus fh) event true (setState_isFocused true s).

Definition onBlur (fh : FocusHandlers) (event : FocusEvent) (s : Store)
  : Completion unit * Store * list FocusEffect :=
  thenCall FormOnBlur (formOnBlur fh) event false (setState_isFocused false s).

(** The events a user sends to the button. *)
Inductive UserEvent : Type :=
| Click (e : MouseEvent)
| Focus (e : FocusEvent)
| Blur (e : FocusEvent).

(** The store after one event, and after a sequence, oldest first.  Each
    event is dispatched on its own. *)
Definition step (c : Instance) (fh : FocusHandlers) (s : Store)
    (ev : UserEvent) : Store :=
  match ev with
  | Click e => final (onClick c e s)
  | Focus e => snd (fst (onFocus fh e s))
  | Blur e => snd (fst (onBlur fh e s))
  end.

Definition run (c : Instance) (fh : FocusHandlers) (evs : list UserEvent)
    (s : Store) : Store :=
  fold_left (step c fh) evs s.

(** The clicks of a sequence, in order. *)
Fixpoint clicksOf (evs : list UserEvent) : list MouseEvent :=
  match evs with
  | [] => []
  | Click e :: rest => e :: clicksOf rest
  | _ :: rest => clicksOf rest
  end.

(** Whether the button is focused after a sequence that starts in [b]. *)
Fixpoint focusAfter (evs : list UserEvent) (b : bool) : bool :=
  match evs with
  | [] => b
  | Click _ :: rest => focusAfter rest b
  | Focus _ :: rest => focusAfter rest true
  | Blur _ :: rest => focusAfter rest false
  end.

End SwitchFocus.

Module CheckboxSequences.
Import Checkbox.

(** The store of a checkbox after a sequence of change events, oldest
    first.  Each event is dispatched on its own. *)
Definition afterChanges {N : Number} (c : Instance)
    (events : list ChangeEvent) (s : Store) : Store :=
  fold_left (fun s1 e => final (onChange c e s1)) events s.

(** The string forms of the values of a group's collection. *)
Definition stringForms {N : Number} (vs : list prim) : list string :=
  map (fun x => String_ (Some x)) vs.

End CheckboxSequences.

Module MoreSamples.

(** A form control that only sets [readOnly]. *)
Definition readOnlyForm : FormControl.Fields :=
  {| FormControl.id := None;
     FormControl.required := None;
     FormControl.disabled := None;
     FormControl.invalid := None;
     FormControl.readOnly := Some true |}.

(** A switch with [onChange] and [onClick] callbacks. *)
Definition switchWith (chk : option bool) (h : option (Handler bool))
    (k : option (Handler Switch.MouseEvent)) (fc : option FormControl.Fields)
  : Switch.Instance :=
  {| Switch.props :=
       {| Switch.SwitchPrimitiveOptions.id := None;
          Switch.SwitchPrimitiveOptions.name := None;
          Switch.SwitchPrimitiveOptions.value := None;
          Switch.SwitchPrimitiveOptions.checked := chk;
          Switch.SwitchPrimitiveOptions.defaultChecked := None;
          Switch.SwitchPrimitiveOptions.required := None;
          Switch.SwitchPrimitiveOptions.disabled := None;
          Switch.SwitchPrimitiveOptions.invalid := None;
          Switch.SwitchPrimitiveOptions.readOnly := None;
          Switch.SwitchPrimitiveOptions.onChange := h;
          Switch.SwitchPrimitiveOptions.onClick := k |};
     Switch.formControl := fc;
     Switch.defaultId := "hope-switch-2" |}.

(** [<Checkbox value=v disabled=dis readOnly=ro />]. *)
Definition flaggedProps (v : option (@prim IntegerNumber))
    (dis ro : option bool) : @Checkbox.Props IntegerNumber :=
  {| Checkbox.CheckboxOptions.iconChecked := None;
     Checkbox.CheckboxOptions.iconIndeterminate := None;
     Checkbox.CheckboxOptions.id := None;
     Checkbox.CheckboxOptions.name := None;
     Checkbox.CheckboxOptions.value := v;
     Checkbox.CheckboxOptions.checked := None;
     Checkbox.CheckboxOptions.defaultChecked := None;
     Checkbox.CheckboxOptions.indeterminate := None;
     Checkbox.CheckboxOptions.required := None;
     Checkbox.CheckboxOptions.disabled := dis;
     Checkbox.CheckboxOptions.readOnly := ro;
     Checkbox.CheckboxOptions.invalid := None;
     Checkbox.CheckboxOptions.onChange := None |}.

(** [<CheckboxGroup value=vs disabled=dis>]. *)
Definition disabledGroup (vs : option (list (@prim IntegerNumber)))
    (dis : option bool) : @Checkbox.CheckboxGroup.Context IntegerNumber :=
  {| Checkbox.CheckboxGroup.state :=
       {| Checkbox.CheckboxGroup.value := vs;
          Checkbox.CheckboxGroup.name := None;
          Checkbox.CheckboxGroup.required := None;
          Checkbox.CheckboxGroup.disabled := dis;
          Checkbox.CheckboxGroup.invalid := None;
          Checkbox.CheckboxGroup.readOnly := None |};
     Checkbox.CheckboxGroup.onChange := None |}.

Definition noFocusHandlers : SwitchFocus.FocusHandlers :=
  {| SwitchFocus.formOnFocus := None; SwitchFocus.formOnBlur := None |}.

Definition focusIn : SwitchFocus.FocusEvent :=
  {| SwitchFocus.relatedTarget := None |}.

End MoreSamples.

(* ------------------------------------------------------------------------- *)
(** ** Traces of the callback helpers *)
(* ------------------------------------------------------------------------- *)

Lemma optcall_trace (St Arg A : Type) (inj : A -> Arg) (sl : Slot)
    (h : option (Handler A)) (a : A) (s : St) :
  trace (optcall inj sl h a s)
  = match h with Some _ => [ECall sl (inj a)] | None => [] end.
Proof. destruct h; reflexivity. Qed.

Lemma optcall_completion (St Arg A : Type) (inj : A -> Arg) (sl : Slot)
    (h : option (Handler A)) (a : A) (s : St) :
  completion (optcall (Arg:=Arg) inj sl h a s)
  = match h with Some f => f a | None => Normal tt end.
Proof. destruct h; reflexivity. Qed.

Lemma callAllHandlers_trace (St Arg A : Type) (inj : A -> Arg)
    (sl1 sl2 : Slot) (h1 h2 : option (Handler A)) (a : A) (s : St) :
  trace (callAllHandlers inj [(sl1, h1); (sl2, h2)] a s)
  = match h1 with
    | None => match h2 with Some _ => [ECall sl2 (inj a)] | None => [] end
    | Some f1 =>
        ECall sl1 (inj a)
        :: match f1 a with
           | Normal _ =>
               match h2 with Some _ => [ECall sl2 (inj a)] | None => [] end
           | Throw _ => []
           end
    end.
Proof.
  destruct h1 as [f1|], h2 as [f2|]; cbn; unfold bind, call, ret; cbn;
    try destruct (f1 a); try destruct (f2 a); reflexivity.
Qed.

Lemma callAllHandlers_final (St Arg A : Type) (inj : A -> Arg)
    (fns : list (Slot * option (Handler A))) (a : A) (s : St) :
  final (callAllHandlers (Arg:=Arg) inj fns a s) = s.
Proof.
  revert s; induction fns as [|[sl h] rest IH]; intro s; [reflexivity|].
  cbn [callAllHandlers]. unfold bind.
  destruct h as [f|]; cbn.
  - destruct (f a); [|reflexivity].
    specialize (IH s).
    destruct (callAllHandlers inj rest a s) as [[r s2] t2]; exact IH.
  - specialize (IH s).
    destruct (callAllHandlers inj rest a s) as [[r s2] t2]; exact IH.
Qed.

Lemma callAllHandlers_writes (St Arg A : Type) (inj : A -> Arg)
    (fns : list (Slot * option (Handler A))) (a : A) (s : St) :
  writes (trace (callAllHandlers (St:=St) inj fns a s)) = [].
Proof.
  revert s; induction fns as [|[sl h] rest IH]; intro s; [reflexivity|].
  cbn [callAllHandlers]. unfold bind.
  destruct h as [f|]; cbn.
  - destruct (f a); [|reflexivity].
    specialize (IH s).
    destruct (callAllHandlers inj rest a s) as [[r s2] t2]; exact IH.
  - specialize (IH s).
    destruct (callAllHandlers inj rest a s) as [[r s2] t2]; exact IH.
Qed.

Lemma bind_final (St Arg A B : Type) (m : M St Arg A) (k : A -> M St Arg B)
    (s : St) :
  final (bind m k s)
  = match completion (m s) with
    | Normal a => final (k a (final (m s)))
    | Throw _ => final (m s)
    end.
Proof.
  unfold bind, final, completion.
  destruct (m s) as [[[a|e] s1] t1]; cbn; [|reflexivity].
  destruct (k a s1) as [[r s2] t2]; reflexivity.
Qed.

Lemma bind_trace (St Arg A B : Type) (m : M St Arg A) (k : A -> M St Arg B)
    (s : St) :
  trace (bind m k s)
  = match completion (m s) with
    | Normal a => trace (m s) ++ trace (k a (final (m s)))
    | Throw _ => trace (m s)
    end.
Proof.
  unfold bind, final, completion, trace.
  destruct (m s) as [[[a|e] s1] t1]; cbn; [|reflexivity].
  destruct (k a s1) as [[r s2] t2]; reflexivity.
Qed.

Lemma optcall_final (St Arg A : Type) (inj : A -> Arg) (sl : Slot)
    (h : option (Handler A)) (a : A) (s : St) :
  final (optcall (Arg:=Arg) inj sl h a s) = s.
Proof. destruct h; reflexivity. Qed.

(** Where an element [y] can sit in a list that has an [x] after a prefix
    free of [y]: behind that [x]. *)
Lemma split_behind (A : Type) (x y : A) (pfx tail pre post : list A) :
  ~ In y pfx -> x <> y ->
  pfx ++ x :: tail = pre ++ y :: post ->
  exists mid, pre = pfx ++ x :: mid /\ tail = mid ++ y :: post.
Proof.
  revert pre. induction pfx as [|p pfx IH]; intros pre Hnin Hxy Heq.
  - destruct pre as [|q pre]; cbn in Heq.
    + injection Heq as H1 _. contradiction.
    + injection Heq as H1 H2. subst q. exists pre. split; [reflexivity|exact H2].
  - destruct pre as [|q pre]; cbn in Heq.
    + injection Heq as H1 _. exfalso. apply Hnin. left. exact H1.
    + injection Heq as H1 H2. subst q.
      destruct (IH pre) as [mid [Hp Ht]]; auto.
      * intro Hin. apply Hnin. right. exact Hin.
      * exists mid. split; [cbn; f_equal; exact Hp|exact Ht].
Qed.

(* ------------------------------------------------------------------------- *)
(** ** Properties of [createKeyboard] *)
(* ------------------------------------------------------------------------- *)

Module KeyboardFacts.
Import Keyboard.

(** C10. The [onKeyDown] and [onKeyUp] handlers that [createKeyboard]
    returns invoke no user-supplied handler when [isDisabled] is truthy;
    when it is falsy each forwards the very event it received to the
    matching user-supplied handler, once, if that handler was given, and
    does nothing (and returns normally) if it was not.  The completion of
    the returned handler is that of the user's handler. *)
Theorem createKeyboard_forwards (props : CreateKeyboardProps.t)
    (event : KeyboardEvent) :
  let kp := keyboardProps (createKeyboard props) tt in
  let down := keyboardElementProps.onKeyDown kp event tt in
  let up := keyboardElementProps.onKeyUp kp event tt in
  trace down
  = (if truthy (CreateKeyboardProps.isDisabled props) then []
     else match CreateKeyboardProps.onKeyDown props with
          | Some _ => [ECall PropsOnKeyDown event]
          | None => []
          end)
  /\ trace up
  = (if truthy (CreateKeyboardProps.isDisabled props) then []
     else match CreateKeyboardProps.onKeyUp props with
          | Some _ => [ECall PropsOnKeyUp event]
          | None => []
          end)
  /\ completion down
  = (if truthy (CreateKeyboardProps.isDisabled props) then Normal tt
     else match CreateKeyboardProps.onKeyDown props with
          | Some h => h event
          | None => Normal tt
          end)
  /\ completion up
  = (if truthy (CreateKeyboardProps.isDisabled props) then Normal tt
     else match CreateKeyboardProps.onKeyUp props with
          | Some h => h event
          | None => Normal tt
          end).
Proof.
  cbn zeta. unfold createKeyboard, onKeyDown, onKeyUp. cbn [keyboardProps
    keyboardElementProps.onKeyDown keyboardElementProps.onKeyUp].
  destruct (truthy (CreateKeyboardProps.isDisabled props)).
  - repeat split.
  - rewrite !optcall_trace, !optcall_completion. repeat split.
Qed.

Example disabled_keyboard_calls_nothing :
  onKeyDown
    (Samples.keyboardProps (Some true) (Some Samples.returns) None)
    Samples.keyA tt
  = (Normal tt, tt, []).
Proof. reflexivity. Qed.

Example enabled_keyboard_forwards :
  onKeyUp
    (Samples.keyboardProps None None (Some Samples.throws))
    Samples.keyA tt
  = (Throw {| message := "boom" |}, tt, [ECall PropsOnKeyUp Samples.keyA]).
Proof. reflexivity. Qed.

Example missing_handler_is_noop :
  onKeyDown (Samples.keyboardProps None None None) Samples.keyA tt
  = (Normal tt, tt, []).
Proof. reflexivity. Qed.

End KeyboardFacts.

(* ------------------------------------------------------------------------- *)
(** ** The context accessor *)
(* ------------------------------------------------------------------------- *)

Module ContextFacts.
Import Switch.

Lemma useContext_skip (n : nat) (up : Owner) :
  useContext (repeat OtherProvider n ++ up) = useContext up.
Proof. induction n as [|n IH]; [reflexivity|exact IH]. Qed.

Lemma useContext_none (owner : Owner) :
  useContext owner = None -> owner = repeat OtherProvider (List.length owner).
Proof.
  induction owner as [|p up IH]; [reflexivity|].
  destruct p as [v|]; cbn; [discriminate|].
  intro H. f_equal. exact (IH H).
Qed.

(** C9. Called where no [SwitchPrimitive] provider encloses the caller
    (so the looked-up context is absent), [useSwitcPrimitivehContext]
    throws, at the call, an error whose message names the accessor and the
    component it must be used within; called below a provider it returns
    the value of the nearest one and throws nothing, in particular inside
    a rendered [SwitchPrimitive].  There is no third outcome. *)
Theorem useSwitcPrimitivehContext_fails_fast :
  (forall n : nat,
      useSwitcPrimitivehContext (repeat OtherProvider n)
      = Throw {| message :=
          "[Hope UI]: useSwitcPrimitivehContext must be used within a `<SwitchPrimitive />` component" |})
  /\ (forall (n : nat) (v : SwitchPrimitiveContextValue) (up : Owner),
         useSwitcPrimitivehContext
           (repeat OtherProvider n ++ SwitchPrimitiveContext_Provider v :: up)
         = Normal v)
  /\ (forall (c : Instance) (s : Store) (owner : Owner),
         useSwitcPrimitivehContext (render_owner c s owner)
         = Normal {| ctx_instance := c; ctx_state := s |})
  /\ (forall owner : Owner,
         (exists v, useContext owner = Some v
                    /\ useSwitcPrimitivehContext owner = Normal v)
         \/ (owner = repeat OtherProvider (List.length owner)
             /\ exists e, useSwitcPrimitivehContext owner = Throw e
                          /\ message e <> "")).
Proof.
  unfold useSwitcPrimitivehContext. repeat split.
  - intro n. rewrite <- (app_nil_r (repeat OtherProvider n)).
    rewrite useContext_skip. reflexivity.
  - intros n v up. rewrite useContext_skip. reflexivity.
  - intro owner. destruct (useContext owner) as [v|] eqn:E.
    + left. exists v. split; reflexivity.
    + right. split; [exact (useContext_none owner E)|].
      eexists. split; [reflexivity|]. cbn. discriminate.
Qed.

End ContextFacts.

(* ------------------------------------------------------------------------- *)
(** ** Derived attributes *)
(* ------------------------------------------------------------------------- *)

Module AttributeFacts.

Lemma emit_flag (flag : option bool) :
  match ofBool (if truthy flag then Some true else None) with
  | AUndefined => None
  | _ => Some (ofBool (if truthy flag then Some true else None))
  end
  = if truthy flag then Some (ABool true) else None.
Proof. destruct (truthy flag); reflexivity. Qed.

(** C7, as the claim states it, fails on [aria-checked]: a switch that is
    not checked emits [aria-checked] with the value [false], it does not
    omit it; and a checked checkbox emits no [aria-checked] at all. *)
Lemma aria_checked_false_is_emitted :
  let c := Samples.switch None None None None in
  let s := Switch.createStore c in
  Switch.state.checked c s = false
  /\ emitted (Switch.buttonAttrs c s) "aria-checked" = Some (ABool false)
  /\ emitted (Switch.buttonAttrs c s) "aria-checked" <> None
  /\ let cb := Samples.checkbox
                 (Samples.checkboxProps None (Some true) None None) None in
     let sb := Checkbox.createSignal cb in
     Checkbox.checked cb sb = Some true
     /\ emitted (Checkbox.inputAttrs cb sb) "aria-checked" = None.
Proof. cbv. repeat split; discriminate. Qed.

(** C7, amended. [aria-required], [aria-disabled], [aria-invalid] and
    [aria-readonly] are emitted with the value [true] when the resolved
    state of that name is truthy and are omitted otherwise, on the switch
    and on the checkbox.  [aria-checked] is written by the switch only,
    which always emits it with the resolved checked boolean ([true] or
    [false]); the checkbox never emits it. *)
Theorem aria_attributes {N : Number} (c : Switch.Instance) (s : Switch.Store)
    (cb : Checkbox.Instance) (sb : Checkbox.Store) :
  let flag (f : option bool) :=
    if truthy f then Some (ABool true) else None in
  (emitted (Switch.buttonAttrs c s) "aria-required"
     = flag (Switch.state.required c s)
   /\ emitted (Switch.buttonAttrs c s) "aria-disabled"
     = flag (Switch.state.disabled c s)
   /\ emitted (Switch.buttonAttrs c s) "aria-invalid"
     = flag (Switch.state.invalid c s)
   /\ emitted (Switch.buttonAttrs c s) "aria-readonly"
     = flag (Switch.state.readOnly c s)
   /\ emitted (Switch.buttonAttrs c s) "aria-checked"
     = Some (ABool (Switch.state.checked c s)))
  /\ (emitted (Checkbox.inputAttrs cb sb) "aria-required"
        = flag (Checkbox.required cb)
      /\ emitted (Checkbox.inputAttrs cb sb) "aria-disabled"
        = flag (Checkbox.disabled cb)
      /\ emitted (Checkbox.inputAttrs cb sb) "aria-invalid"
        = flag (Checkbox.invalid cb)
      /\ emitted (Checkbox.inputAttrs cb sb) "aria-readonly"
        = flag (Checkbox.readOnly cb)
      /\ emitted (Checkbox.inputAttrs cb sb) "aria-checked" = None).
Proof.
  cbn zeta. split.
  - unfold Switch.buttonAttrs. cbn [emitted String.eqb Ascii.eqb Bool.eqb].
    unfold Switch.state.aria_required, Switch.state.aria_disabled,
      Switch.state.aria_invalid, Switch.state.aria_readonly.
    rewrite !emit_flag. repeat split.
  - unfold Checkbox.inputAttrs. cbn [emitted String.eqb Ascii.eqb Bool.eqb].
    unfold Checkbox.ariaRequired, Checkbox.ariaDisabled,
      Checkbox.ariaInvalid, Checkbox.ariaReadonly.
    rewrite !emit_flag. repeat split.
Qed.

End AttributeFacts.

(* ------------------------------------------------------------------------- *)
(** ** Resolution of the checked state *)
(* ------------------------------------------------------------------------- *)

Module ResolutionFacts.
Import Checkbox.

Section WithNumber.
Context {N : Number}.

Lemma some_spec (v : string) (vs : list prim) :
  existsb (fun val => String.eqb v (String_ (Some val))) vs = true
  <-> In v (map (fun x => String_ (Some x)) vs).
Proof.
  rewrite existsb_exists, in_map_iff. split.
  - intros [x [Hin Heq]]. apply String.eqb_eq in Heq. exists x. auto.
  - intros [x [Heq Hin]]. exists x. split; [exact Hin|].
    apply String.eqb_eq. auto.
Qed.

(** C1. Inside a group whose selected-values collection is not null, the
    resolved checked state is a boolean, and it is the membership test of
    the stringified item value among the stringified members of the
    collection: [true] for every member, [false] for every value whose
    string form is that of no member.  Nothing else enters: two items of
    the group with the same value resolve alike whatever their [checked]
    props, their other props and their internal states are. *)
Theorem grouped_checked_is_membership (c : Instance) (s : Store)
    (ctx : CheckboxGroup.Context) (vs : list prim) :
  checkboxGroupContext c = Some ctx ->
  CheckboxGroup.value (CheckboxGroup.state ctx) = Some vs ->
  let v := String_ (CheckboxOptions.value (inputProps c)) in
  let members := map (fun x => String_ (Some x)) vs in
  (exists b, checked c s = Some b /\ (b = true <-> In v members))
  /\ (In v members -> checked c s = Some true)
  /\ (~ In v members -> checked c s = Some false)
  /\ (forall x, In x vs -> CheckboxOptions.value (inputProps c) = Some x ->
                checked c s = Some true)
  /\ (forall (c' : Instance) (s' : Store),
         checkboxGroupContext c' = Some ctx ->
         String_ (CheckboxOptions.value (inputProps c')) = v ->
         checked c' s' = checked c s).
Proof.
  intros Hctx Hvs v members.
  assert (E : forall c1 s1, checkboxGroupContext c1 = Some ctx ->
            checked c1 s1
            = Some (existsb
                      (fun val =>
                         String.eqb
                           (String_ (CheckboxOptions.value (inputProps c1)))
                           (String_ (Some val))) vs)).
  { intros c1 s1 H1. unfold checked. rewrite H1, Hvs. reflexivity. }
  pose proof (some_spec v vs) as Hspec. fold members in Hspec.
  rewrite (E c s Hctx). fold v.
  repeat split.
  - eexists. split; [reflexivity|exact Hspec].
  - intro Hin. f_equal. apply Hspec. exact Hin.
  - intro Hnin. f_equal.
    destruct (existsb _ vs) eqn:Ex; [|reflexivity].
    exfalso. apply Hnin, Hspec. reflexivity.
  - intros x Hin Hx. f_equal. apply Hspec. unfold members, v.
    rewrite Hx. apply in_map_iff. exists x. auto.
  - intros c' s' Hctx' Hv. rewrite (E c' s' Hctx'), Hv. reflexivity.
Qed.

(** Inside a group whose collection is null the code resolves [checked]
    to [undefined], whatever the [checked] prop and the internal state. *)
Lemma null_group_checked_undefined (c : Instance) (s : Store)
    (ctx : CheckboxGroup.Context) :
  checkboxGroupContext c = Some ctx ->
  CheckboxGroup.value (CheckboxGroup.state ctx) = None ->
  checked c s = None.
Proof. intros H1 H2. unfold checked. rewrite H1, H2. reflexivity. Qed.

(** C2, amended. Outside any group context (a checkbox with no enclosing
    group, and every switch, which knows no group) the resolved checked
    state is a boolean: [!!props.checked] when [props.checked] is not
    undefined, the internal state otherwise, and the internal state starts
    as [!!defaultChecked].  Inside a group whose selected-values
    collection is null the checkbox resolves it to [undefined]. *)
Theorem ungrouped_checked (c : Instance) (s : Store)
    (sw : Switch.Instance) (ss : Switch.Store) :
  checkboxGroupContext c = None ->
  checked c s
  = Some (match CheckboxOptions.checked (local c) with
          | Some b => truthy (Some b)
          | None => checkedState s
          end)
  /\ checkedState (createSignal c)
     = truthy (CheckboxOptions.defaultChecked (local c))
  /\ Switch.state.checked sw ss
     = match Switch.SwitchPrimitiveOptions.checked (Switch.props sw) with
       | Some b => truthy (Some b)
       | None => Switch._checked ss
       end
  /\ Switch._checked (Switch.createStore sw)
     = truthy (Switch.SwitchPrimitiveOptions.defaultChecked (Switch.props sw))
  /\ (forall (c' : Instance) (ctx : CheckboxGroup.Context),
         checkboxGroupContext c' = Some ctx ->
         CheckboxGroup.value (CheckboxGroup.state ctx) = None ->
         checked c' s = None).
Proof.
  intro Hg. repeat split.
  - unfold checked, isControlled. rewrite Hg.
    destruct (CheckboxOptions.checked (local c)); reflexivity.
  - unfold Switch.state.checked, Switch.state.isControlled.
    destruct (Switch.SwitchPrimitiveOptions.checked (Switch.props sw));
      reflexivity.
  - intros c' ctx H1 H2. eapply null_group_checked_undefined; eassumption.
Qed.

End WithNumber.

(** C1 at the example of the specification: in a group whose value is
    [["a", "b"]], the item ["a"] is checked although it is passed
    [checked={false}]. *)
Lemma grouped_checked_is_membership_witness :
  Checkbox.checked
    (Samples.checkbox
       (Samples.checkboxProps (Some (PStr "a")) (Some false) None None)
       (Some (Samples.group (Some [PStr "a"; PStr "b"]) None None)))
    {| checkedState := false |}
  = Some true.
Proof.
  refine (proj1 (proj2
    (@grouped_checked_is_membership IntegerNumber
       (Samples.checkbox
          (Samples.checkboxProps (Some (PStr "a")) (Some false) None None)
          (Some (Samples.group (Some [PStr "a"; PStr "b"]) None None)))
       {| checkedState := false |}
       (Samples.group (Some [PStr "a"; PStr "b"]) None None)
       [PStr "a"; PStr "b"] eq_refl eq_refl)) _).
  simpl. left. reflexivity.
Defined.

(** C2, as the claim states it, fails: a group context whose collection is
    null is a case where no group context exposes a non-null collection,
    [props.checked] is [true], and yet the resolved checked state is
    [undefined], not [true], and not a boolean. *)
Lemma null_group_controlled_is_undefined :
  let ctx := Samples.group None None None in
  let c := Samples.checkbox
             (Samples.checkboxProps (Some (PStr "a")) (Some true) None None)
             (Some ctx) in
  let s := Checkbox.createSignal c in
  Checkbox.CheckboxGroup.value (Checkbox.CheckboxGroup.state ctx) = None
  /\ Checkbox.CheckboxOptions.checked (Checkbox.props c) = Some true
  /\ Checkbox.checked c s = None
  /\ Checkbox.checked c s
     <> Some (truthy (Checkbox.CheckboxOptions.checked (Checkbox.props c))).
Proof. cbv. repeat split. discriminate. Qed.

(** C2, amended, at a controlled checkbox outside any group. *)
Lemma ungrouped_checked_witness :
  Checkbox.checked
    (Samples.checkbox
       (Samples.checkboxProps (Some (PStr "a")) (Some true) None None) None)
    {| checkedState := false |}
  = Some true.
Proof.
  exact (proj1
    (@ungrouped_checked IntegerNumber
       (Samples.checkbox
          (Samples.checkboxProps (Some (PStr "a")) (Some true) None None) None)
       {| checkedState := false |}
       (Samples.switch None None None None)
       (Switch.createStore (Samples.switch None None None None))
       eq_refl)).
Defined.

(** The example of the specification: group value [["a", "b"]]. *)
Example spec_example_group :
  let g := Some (Samples.group (Some [PStr "a"; PStr "b"]) None None) in
  let item v := Samples.checkbox
                  (Samples.checkboxProps (Some v) None None None) g in
  Checkbox.checked (item (PStr "a")) {| checkedState := false |} = Some true
  /\ Checkbox.checked (item (PStr "c")) {| checkedState := true |} = Some false.
Proof. split; reflexivity. Qed.

(** Values are compared by their string forms: the number [1] and the
    string ["1"] are the same member. *)
Example number_and_string_compare_as_strings :
  let g := Some (Samples.group (Some [@PNum IntegerNumber 1%Z; PStr "2"]) None None) in
  let item v := Samples.checkbox
                  (Samples.checkboxProps (Some v) None None None) g in
  Checkbox.checked (item (PStr "1")) {| checkedState := false |} = Some true
  /\ Checkbox.checked (item (@PNum IntegerNumber 2%Z)) {| checkedState := false |} = Some true
  /\ Checkbox.checked (item (@PNum IntegerNumber 3%Z)) {| checkedState := false |} = Some false.
Proof. repeat split; reflexivity. Qed.

End ResolutionFacts.

(* ------------------------------------------------------------------------- *)
(** ** Interaction: the change handler of the checkbox *)
(* ------------------------------------------------------------------------- *)

Module CheckboxInteraction.
Import Checkbox.

Section WithNumber.
Context {N : Number}.

Lemma onChange_suppressed (c : Instance) (event : ChangeEvent) (s : Store) :
  guard c = true ->
  onChange c event s = (Normal tt, s, [EPreventDefault]).
Proof. unfold guard, onChange. intros ->. reflexivity. Qed.

Lemma onChange_final (c : Instance) (event : ChangeEvent) (s : Store) :
  guard c = false ->
  final (onChange c event s)
  = if isControlled c then s else {| checkedState := target_checked event |}.
Proof.
  unfold guard, onChange. intros ->. rewrite bind_final.
  destruct (isControlled c); rewrite callAllHandlers_final; reflexivity.
Qed.

Lemma onChange_trace (c : Instance) (event : ChangeEvent) (s : Store) :
  guard c = false ->
  trace (onChange c event s)
  = (if isControlled c then []
     else [ESet "checkedState" (target_checked event)])
    ++ trace (callAllHandlers (fun e => e) (handlers c) event
                (if isControlled c then s
                 else {| checkedState := target_checked event |})).
Proof.
  unfold guard, onChange. intros ->. rewrite bind_trace.
  destruct (isControlled c); reflexivity.
Qed.

(** C4. An ungrouped checkbox that is given a [checked] prop keeps its
    internal state through every change event: the handler writes
    nothing to it and leaves it as it was, and the resolved checked state
    is [!!props.checked] before the event and after it. *)
Theorem controlled_checkbox_keeps_state (c : Instance) (s : Store)
    (event : ChangeEvent) (b : bool) :
  checkboxGroupContext c = None ->
  CheckboxOptions.checked (local c) = Some b ->
  let r := onChange c event s in
  final r = s
  /\ writes (trace r) = []
  /\ checked c s = Some (truthy (CheckboxOptions.checked (local c)))
  /\ checked c (final r) = Some (truthy (CheckboxOptions.checked (local c))).
Proof.
  intros Hg Hc r.
  assert (Hctl : isControlled c = true) by (unfold isControlled; now rewrite Hc).
  assert (Hchk : forall s1, checked c s1
                 = Some (truthy (CheckboxOptions.checked (local c)))).
  { intro s1. unfold checked. rewrite Hg, Hctl. reflexivity. }
  assert (Hfin : final r = s /\ writes (trace r) = []).
  { subst r. destruct (guard c) eqn:G.
    - rewrite (onChange_suppressed c event s G). split; reflexivity.
    - rewrite (onChange_final c event s G), (onChange_trace c event s G), Hctl.
      split; [reflexivity|]. cbn [app]. apply callAllHandlers_writes. }
  destruct Hfin as [H1 H2]. repeat split; auto.
Qed.

(** C6. A change event that the guard lets through on a grouped checkbox
    reaches the callbacks in one order: the change handler of the group,
    when there is one, then the item's [onChange], when there is one and
    the group's handler has returned.  So whenever the item's handler is
    invoked and the group has a handler, the group's handler was invoked
    before it, on the same event. *)
Theorem group_handler_runs_first (c : Instance) (s : Store)
    (event : ChangeEvent) (ctx : CheckboxGroup.Context) :
  checkboxGroupContext c = Some ctx ->
  guard c = false ->
  let r := onChange c event s in
  let item :=
    match CheckboxOptions.onChange (local c) with
    | Some _ => [ECall ItemOnChange event]
    | None => []
    end in
  calls (trace r)
  = match CheckboxGroup.onChange ctx with
    | Some g =>
        ECall GroupOnChange event
        :: match g event with Normal _ => item | Throw _ => [] end
    | None => item
    end
  /\ (forall pre post,
         trace r = pre ++ ECall ItemOnChange event :: post ->
         CheckboxGroup.onChange ctx <> None ->
         In (ECall GroupOnChange event) pre
         /\ ~ In (ECall GroupOnChange event) post).
Proof.
  intros Hg G r item.
  assert (Ht : trace r
    = (if isControlled c then []
       else [ESet "checkedState" (target_checked event)])
      ++ match CheckboxGroup.onChange ctx with
         | Some g =>
             ECall GroupOnChange event
             :: match g event with Normal _ => item | Throw _ => [] end
         | None => item
         end).
  { subst r. rewrite (onChange_trace c event s G). f_equal.
    unfold handlers. rewrite callAllHandlers_trace, Hg. cbn [chain].
    destruct (CheckboxGroup.onChange ctx); reflexivity. }
  split.
  - rewrite Ht. unfold calls. rewrite filter_app.
    replace (filter isCall
               (if isControlled c then []
                else [ESet "checkedState" (target_checked event)]))
      with (@nil (Effect ChangeEvent)) by (destruct (isControlled c); reflexivity).
    cbn [app]. subst item.
    destruct (CheckboxGroup.onChange ctx) as [g|];
      [destruct (g event)|];
      destruct (CheckboxOptions.onChange (local c)); reflexivity.
  - intros pre post Hsplit Hsome. rewrite Ht in Hsplit.
    destruct (CheckboxGroup.onChange ctx) as [g|]; [|congruence].
    apply split_behind in Hsplit as [mid [Hpre Htail]].
    + split.
      * rewrite Hpre. apply in_or_app. right. left. reflexivity.
      * subst item.
        destruct (g event), (CheckboxOptions.onChange (local c));
          destruct mid as [|m1 [|m2 mid]]; try discriminate Htail;
          cbn in Htail; injection Htail as <-; intros [].
    + destruct (isControlled c); cbn; intuition discriminate.
    + discriminate.
Qed.

End WithNumber.

(** Nothing is promised after a callback throws: the item's handler is not
    reached when the group's handler throws. *)
Example throwing_group_handler_skips_item :
  let event := {| target_checked := true |} in
  onChange
    (Samples.checkbox
       (Samples.checkboxProps (Some (PStr "a")) None None
          (Some Samples.returns))
       (Some (Samples.group (Some []) None (Some Samples.throws))))
    event {| checkedState := false |}
  = (Throw {| message := "boom" |}, {| checkedState := true |},
     [ESet "checkedState" true; ECall GroupOnChange event]).
Proof. reflexivity. Qed.

End CheckboxInteraction.

(* ------------------------------------------------------------------------- *)
(** ** Interaction: the click handler of the switch *)
(* ------------------------------------------------------------------------- *)

Module SwitchInteraction.
Import Switch.

(** The guard of [onClick] reads the resolved state: once [readOnly] or
    [disabled] resolves to true, by the prop or by the form control, the
    click only has its default action prevented. *)
Lemma onClick_suppressed (c : Instance) (event : MouseEvent) (s : Store) :
  truthy (state.readOnly c s) || truthy (state.disabled c s) = true ->
  onClick c event s = (Normal tt, s, [EPreventDefault]).
Proof.
  intro G. unfold onClick, bind, get. cbn [fst snd]. rewrite G. reflexivity.
Qed.

Lemma onClick_final (c : Instance) (event : MouseEvent) (s : Store) :
  truthy (state.readOnly c s) || truthy (state.disabled c s) = false ->
  final (onClick c event s)
  = if state.isControlled c s then s
    else {| _checked := negb (state.checked c s); isFocused := isFocused s |}.
Proof.
  intro G. unfold onClick. rewrite bind_final.
  cbn [get completion final fst snd]. rewrite G, bind_final.
  unfold callHandler.
  destruct (state.isControlled c s); cbn [negb];
    unfold setState_checked, set, ret; cbn [completion final fst snd];
    rewrite bind_final, !optcall_final;
    match goal with |- context [completion ?x] => destruct (completion x) end;
    reflexivity.
Qed.

Lemma onClick_writes (c : Instance) (event : MouseEvent) (s : Store) :
  state.isControlled c s = true ->
  final (onClick c event s) = s /\ writes (trace (onClick c event s)) = [].
Proof.
  intro Hctl.
  destruct (truthy (state.readOnly c s) || truthy (state.disabled c s)) eqn:G.
  - rewrite (onClick_suppressed c event s G). split; reflexivity.
  - split; [rewrite (onClick_final c event s G), Hctl; reflexivity|].
    unfold onClick, bind, get, callHandler. cbn [fst snd]. rewrite G, Hctl.
    cbn [negb ret].
    destruct (SwitchPrimitiveOptions.onChange (props c)) as [h|]; cbn;
      [destruct (h (negb (state.checked c s))); cbn|];
      destruct (SwitchPrimitiveOptions.onClick (props c)) as [k|]; cbn;
      reflexivity.
Qed.

Lemma afterClicks_snoc (c : Instance) (es : list MouseEvent) (e : MouseEvent)
    (s : Store) :
  afterClicks c (es ++ [e]) s = final (onClick c e (afterClicks c es s)).
Proof. unfold afterClicks. rewrite fold_left_app. reflexivity. Qed.

Lemma click_flips (c : Instance) (event : MouseEvent) (s : Store) :
  SwitchPrimitiveOptions.checked (props c) = None ->
  truthy (state.readOnly c s) || truthy (state.disabled c s) = false ->
  state.checked c (final (onClick c event s)) = negb (state.checked c s).
Proof.
  intros Hc G. rewrite (onClick_final c event s G).
  unfold state.checked, state.isControlled. rewrite Hc. reflexivity.
Qed.

End SwitchInteraction.

(* ------------------------------------------------------------------------- *)
(** ** Uncontrolled inputs alternate *)
(* ------------------------------------------------------------------------- *)

Module ToggleFacts.

Lemma odd_snoc (A : Type) (l : list A) (x : A) :
  Nat.odd (List.length (l ++ [x])) = negb (Nat.odd (List.length l)).
Proof.
  rewrite length_app. cbn [List.length]. rewrite Nat.add_1_r, Nat.odd_succ.
  symmetry. apply Nat.negb_odd.
Qed.

Lemma toggle_flips {N : Number} (c : Checkbox.Instance) (s : Checkbox.Store) :
  Checkbox.checkboxGroupContext c = None ->
  Checkbox.CheckboxOptions.checked (Checkbox.local c) = None ->
  Checkbox.guard c = false ->
  Checkbox.checked c s = Some (Checkbox.checkedState s)
  /\ Checkbox.checkedState (Checkbox.afterToggle c s)
     = negb (Checkbox.checkedState s).
Proof.
  intros Hg Hc G.
  assert (Hctl : Checkbox.isControlled c = false)
    by (unfold Checkbox.isControlled; now rewrite Hc).
  assert (E : Checkbox.checked c s = Some (Checkbox.checkedState s)).
  { unfold Checkbox.checked. rewrite Hg, Hctl. reflexivity. }
  split; [exact E|].
  unfold Checkbox.afterToggle.
  rewrite (CheckboxInteraction.onChange_final c _ s G), Hctl.
  unfold Checkbox.userToggle. rewrite E. cbn.
  destruct (Checkbox.checkedState s); reflexivity.
Qed.

(** C5. An input that is neither grouped nor given a [checked] prop
    resolves, before any interaction, to [!!defaultChecked]; every
    interaction that the guard of its handler lets through turns the
    resolved checked state into its negation, the first one and each one
    after it, so that after [n] of them the state is the initial one
    negated [n] times.  This holds for the switch under clicks and for
    the checkbox under user toggles of the rendered input. *)
Theorem uncontrolled_alternates :
  (forall sw : Switch.Instance,
      Switch.SwitchPrimitiveOptions.checked (Switch.props sw) = None ->
      truthy (Switch.state.readOnly sw (Switch.createStore sw))
      || truthy (Switch.state.disabled sw (Switch.createStore sw)) = false ->
      let s0 := Switch.createStore sw in
      let dflt :=
        truthy (Switch.SwitchPrimitiveOptions.defaultChecked (Switch.props sw)) in
      Switch.state.checked sw s0 = dflt
      /\ (forall es e,
             Switch.state.checked sw (Switch.afterClicks sw (es ++ [e]) s0)
             = negb (Switch.state.checked sw (Switch.afterClicks sw es s0)))
      /\ (forall es,
             Switch.state.checked sw (Switch.afterClicks sw es s0)
             = xorb dflt (Nat.odd (List.length es))))
  /\ (forall (N : Number) (c : @Checkbox.Instance N),
         Checkbox.checkboxGroupContext c = None ->
         Checkbox.CheckboxOptions.checked (Checkbox.local c) = None ->
         Checkbox.guard c = false ->
         let s0 := Checkbox.createSignal c in
         let dflt :=
           truthy (Checkbox.CheckboxOptions.defaultChecked (Checkbox.local c)) in
         Checkbox.checked c s0 = Some dflt
         /\ (forall n,
                Checkbox.checked c (Checkbox.afterToggles c (S n) s0)
                = option_map negb
                    (Checkbox.checked c (Checkbox.afterToggles c n s0)))
         /\ (forall n,
                Checkbox.checked c (Checkbox.afterToggles c n s0)
                = Some (xorb dflt (Nat.odd n)))).
Proof.
  split.
  - intros sw Hc G s0 dflt.
    assert (Hflip : forall es e,
      Switch.state.checked sw (Switch.afterClicks sw (es ++ [e]) s0)
      = negb (Switch.state.checked sw (Switch.afterClicks sw es s0))).
    { intros es e. rewrite SwitchInteraction.afterClicks_snoc.
      apply SwitchInteraction.click_flips; [exact Hc|exact G]. }
    assert (H0 : Switch.state.checked sw s0 = dflt).
    { unfold Switch.state.checked, Switch.state.isControlled. rewrite Hc.
      reflexivity. }
    repeat split; [exact H0|exact Hflip|].
    intro es. induction es as [|e es IH] using rev_ind.
    + cbn. rewrite H0. destruct dflt; reflexivity.
    + rewrite Hflip, IH, odd_snoc. destruct dflt, (Nat.odd (List.length es));
        reflexivity.
  - intros N c Hg Hc G s0 dflt.
    assert (Hstep : forall n,
      Checkbox.checked c (Checkbox.afterToggles c (S n) s0)
      = option_map negb (Checkbox.checked c (Checkbox.afterToggles c n s0))).
    { intro n. cbn [Checkbox.afterToggles].
      destruct (toggle_flips c (Checkbox.afterToggles c n s0) Hg Hc G)
        as [E1 E2].
      destruct (toggle_flips
                  c (Checkbox.afterToggle c (Checkbox.afterToggles c n s0))
                  Hg Hc G) as [E3 _].
      rewrite E3, E1, E2. reflexivity. }
    assert (H0 : Checkbox.checked c s0 = Some dflt).
    { destruct (toggle_flips c s0 Hg Hc G) as [E _]. exact E. }
    repeat split; [exact H0|exact Hstep|].
    intro n. induction n as [|n IH].
    + cbn. rewrite H0. destruct dflt; reflexivity.
    + rewrite Hstep, IH, Nat.odd_succ, <- Nat.negb_odd. cbn.
      destruct dflt, (Nat.odd n); reflexivity.
Qed.

End ToggleFacts.

(* ------------------------------------------------------------------------- *)
(** ** The indeterminate prop *)
(* ------------------------------------------------------------------------- *)

Module IndeterminateFacts.
Import Checkbox.

(** C8. The [indeterminate] prop selects the icon and nothing else.  The
    control shows the indeterminate icon when the prop is truthy, whatever
    the resolved checked state is; it shows the checked icon exactly when
    the prop is falsy and the resolved checked state is truthy; otherwise
    it shows no icon.  Changing the prop changes neither the resolved
    checked state, nor the [checked] attribute of the form input, nor
    anything the change handler does: the write to the internal state and
    the calls to the group's and the item's callbacks are the same. *)
Theorem indeterminate_only_selects_icon {N : Number} (c : Instance)
    (s : Store) (i : option bool) (event : ChangeEvent) :
  controlIcon c s
  = (if truthy (CheckboxOptions.indeterminate (inputProps c))
     then Some (iconIndeterminate c)
     else if truthy (checked c s) then Some (iconChecked c) else None)
  /\ controlIcon (withIndeterminate (Some true) c) s
     = Some (iconIndeterminate c)
  /\ checked (withIndeterminate i c) s = checked c s
  /\ emitted (inputAttrs (withIndeterminate i c) s) "checked"
     = emitted (inputAttrs c s) "checked"
  /\ onChange (withIndeterminate i c) event s = onChange c event s.
Proof.
  repeat split.
  unfold controlIcon. cbn [Switch_Match].
  destruct (truthy (CheckboxOptions.indeterminate (inputProps c)));
    [reflexivity|].
  destruct (truthy (checked c s)); reflexivity.
Qed.

End IndeterminateFacts.

(* ------------------------------------------------------------------------- *)
(** ** The guard clause and the resolved state *)
(* ------------------------------------------------------------------------- *)

Module GuardFacts.

(** C3 fails on the checkbox.  An item of a read-only group, without a
    [readOnly] prop of its own, resolves [readOnly] to true through the
    group; the guard of [onChange] looks at the item's own props only,
    so the change event is not suppressed: the internal state is written
    and both callbacks are invoked.  (The switch guards on the resolved
    state, see [SwitchInteraction.onClick_suppressed].) *)
Theorem group_readOnly_is_not_guarded :
  let ctx := Samples.group (Some []) (Some true) (Some Samples.returns) in
  let c := Samples.checkbox
             (Samples.checkboxProps (Some (PStr "a")) None None
                (Some Samples.returns))
             (Some ctx) in
  let s := Checkbox.createSignal c in
  let event := {| Checkbox.target_checked := true |} in
  let r := Checkbox.onChange c event s in
  Checkbox.readOnly c = Some true
  /\ trace r = [ ESet "checkedState" true;
                 ECall GroupOnChange event;
                 ECall ItemOnChange event ]
  /\ s = {| Checkbox.checkedState := false |}
  /\ final r = {| Checkbox.checkedState := true |}
  /\ ~ In EPreventDefault (trace r).
Proof.
  cbv. repeat split. intros [H|[H|[H|[]]]]; discriminate H.
Qed.

(** The same item inside a form control that is read-only. *)
Lemma formControl_readOnly_is_not_guarded :
  let c := {| Checkbox.props :=
                Samples.checkboxProps (Some (PStr "a")) None None None;
              Checkbox.checkboxGroupContext := None;
              Checkbox.formControl :=
                Some {| FormControl.id := None;
                        FormControl.required := None;
                        FormControl.disabled := None;
                        FormControl.invalid := None;
                        FormControl.readOnly := Some true |};
              Checkbox.defaultId := "hope-checkbox-1" |} in
  let r := Checkbox.onChange c {| Checkbox.target_checked := true |}
             (Checkbox.createSignal c) in
  Checkbox.readOnly c = Some true
  /\ final r = {| Checkbox.checkedState := true |}.
Proof. cbv. split; reflexivity. Qed.

(** With the flag on the item itself the checkbox does suppress the
    event: default prevented, no write, no callback. *)
Lemma own_readOnly_is_guarded {N : Number} (c : Checkbox.Instance)
    (s : Checkbox.Store) (event : Checkbox.ChangeEvent) :
  Checkbox.guard c = true ->
  let r := Checkbox.onChange c event s in
  trace r = [EPreventDefault] /\ final r = s
  /\ writes (trace r) = [] /\ calls (trace r) = [].
Proof.
  intros G r. subst r.
  rewrite (CheckboxInteraction.onChange_suppressed c event s G).
  repeat split.
Qed.

End GuardFacts.

(* ------------------------------------------------------------------------- *)
(** ** The theorems at sample instances *)
(* ------------------------------------------------------------------------- *)

Module Witnesses.

(** C4 at a controlled checkbox outside any group. *)
Lemma controlled_checkbox_keeps_state_witness :
  final
    (Checkbox.onChange
       (Samples.checkbox
          (Samples.checkboxProps (Some (PStr "a")) (Some true) None
             (Some Samples.returns)) None)
       {| Checkbox.target_checked := false |}
       {| Checkbox.checkedState := false |})
  = {| Checkbox.checkedState := false |}.
Proof.
  exact (proj1
    (@CheckboxInteraction.controlled_checkbox_keeps_state IntegerNumber
       (Samples.checkbox
          (Samples.checkboxProps (Some (PStr "a")) (Some true) None
             (Some Samples.returns)) None)
       {| Checkbox.checkedState := false |}
       {| Checkbox.target_checked := false |}
       true eq_refl eq_refl)).
Defined.

(** C6 at an item with a handler inside a group with a handler. *)
Lemma group_handler_runs_first_witness :
  calls
    (trace
       (Checkbox.onChange
          (Samples.checkbox
             (Samples.checkboxProps (Some (PStr "a")) None None
                (Some Samples.returns))
             (Some (Samples.group (Some []) None (Some Samples.returns))))
          {| Checkbox.target_checked := true |}
          {| Checkbox.checkedState := false |}))
  = [ ECall GroupOnChange {| Checkbox.target_checked := true |};
      ECall ItemOnChange {| Checkbox.target_checked := true |} ].
Proof.
  exact (proj1
    (@CheckboxInteraction.group_handler_runs_first IntegerNumber
       (Samples.checkbox
          (Samples.checkboxProps (Some (PStr "a")) None None
             (Some Samples.returns))
          (Some (Samples.group (Some []) None (Some Samples.returns))))
       {| Checkbox.checkedState := false |}
       {| Checkbox.target_checked := true |}
       (Samples.group (Some []) None (Some Samples.returns))
       eq_refl eq_refl)).
Defined.

(** C5 at a switch clicked three times and a checkbox toggled twice. *)
Lemma uncontrolled_alternates_witness :
  Switch.state.checked (Samples.switch None None None None)
    (Switch.afterClicks (Samples.switch None None None None)
       [Samples.click; Samples.click; Samples.click]
       (Switch.createStore (Samples.switch None None None None)))
  = true
  /\ Checkbox.checked
       (Samples.checkbox
          (Samples.checkboxProps (Some (PStr "a")) None (Some true) None) None)
       (Checkbox.afterToggles
          (Samples.checkbox
             (Samples.checkboxProps (Some (PStr "a")) None (Some true) None)
             None)
          2
          (Checkbox.createSignal
             (Samples.checkbox
                (Samples.checkboxProps (Some (PStr "a")) None (Some true) None)
                None)))
     = Some true.
Proof.
  split.
  - exact (proj2 (proj2
      (proj1 ToggleFacts.uncontrolled_alternates
         (Samples.switch None None None None) eq_refl eq_refl))
      [Samples.click; Samples.click; Samples.click]).
  - exact (proj2 (proj2
      (proj2 ToggleFacts.uncontrolled_alternates IntegerNumber
         (Samples.checkbox
            (Samples.checkboxProps (Some (PStr "a")) None (Some true) None)
            None)
         eq_refl eq_refl eq_refl)) 2).
Defined.

End Witnesses.

(* ------------------------------------------------------------------------- *)
(** ** More on the switch: what a click reports, sequences, focus *)
(* ------------------------------------------------------------------------- *)

Module SwitchExtras.
Import Switch.

Lemma onClick_run (c : Instance) (event : MouseEvent) (s : Store) :
  truthy (state.readOnly c s) || truthy (state.disabled c s) = false ->
  let nv := negb (state.checked c s) in
  let click :=
    match SwitchPrimitiveOptions.onClick (props c) with
    | Some _ => [ECall ItemOnClick (AMouse event)]
    | None => []
    end in
  let after :=
    match SwitchPrimitiveOptions.onClick (props c) with
    | Some k => k event
    | None => Normal tt
    end in
  trace (onClick c event s)
  = (if state.isControlled c s then [] else [ESet "_checked" nv])
    ++ match SwitchPrimitiveOptions.onChange (props c) with
       | Some h =>
           ECall ItemOnChange (AChecked nv)
           :: match h nv with Normal _ => click | Throw _ => [] end
       | None => click
       end
  /\ completion (onClick c event s)
     = match SwitchPrimitiveOptions.onChange (props c) with
       | Some h => match h nv with Normal _ => after | Throw e => Throw e end
       | None => after
       end.
Proof.
  intros G nv click after. subst nv click after.
  unfold onClick, bind, get, callHandler. cbn [fst snd]. rewrite G.
  destruct (state.isControlled c s); cbn [negb ret setState_checked set];
    (destruct (SwitchPrimitiveOptions.onChange (props c)) as [h|]; cbn;
     [destruct (h (negb (state.checked c s))); cbn|];
     destruct (SwitchPrimitiveOptions.onClick (props c)) as [k|]; cbn;
     split; reflexivity).
Qed.

(** X1. A click that the guard lets through computes the new value as the
    negation of the resolved checked state, in controlled and in
    uncontrolled mode alike, and reports it: [onChange], when given, is
    called with that value, then [onClick], when given, with the event;
    [onClick] is not reached when [onChange] throws, and the click then
    ends with that exception.  The default action is not prevented. *)
Theorem click_reports_negation (c : Instance) (s : Store) (event : MouseEvent) :
  truthy (state.readOnly c s) || truthy (state.disabled c s) = false ->
  let nv := negb (state.checked c s) in
  let r := onClick c event s in
  let click :=
    match SwitchPrimitiveOptions.onClick (props c) with
    | Some _ => [ECall ItemOnClick (AMouse event)]
    | None => []
    end in
  calls (trace r)
  = match SwitchPrimitiveOptions.onChange (props c) with
    | Some h =>
        ECall ItemOnChange (AChecked nv)
        :: match h nv with Normal _ => click | Throw _ => [] end
    | None => click
    end
  /\ (forall h e, SwitchPrimitiveOptions.onChange (props c) = Some h ->
                  h nv = Throw e -> completion r = Throw e)
  /\ ~ In EPreventDefault (trace r)
  /\ state.checked c (final r)
     = if state.isControlled c s then state.checked c s else nv.
Proof.
  intros G nv r click.
  destruct (onClick_run c event s G) as [Ht Hc]. fold nv in Ht, Hc.
  fold r in Ht, Hc. fold click in Ht.
  repeat split.
  - rewrite Ht. unfold calls. rewrite filter_app.
    replace (filter isCall
               (if state.isControlled c s then [] else [ESet "_checked" nv]))
      with (@nil (Effect Arg))
      by (destruct (state.isControlled c s); reflexivity).
    cbn [app]. subst click.
    destruct (SwitchPrimitiveOptions.onChange (props c)) as [h|];
      [destruct (h nv)|];
      destruct (SwitchPrimitiveOptions.onClick (props c)); reflexivity.
  - intros h e Hh He. rewrite Hc, Hh, He. reflexivity.
  - rewrite Ht. subst click. intro Hin. apply in_app_or in Hin.
    destruct Hin as [Hin|Hin].
    + destruct (state.isControlled c s); cbn in Hin;
        intuition discriminate.
    + destruct (SwitchPrimitiveOptions.onChange (props c)) as [h|];
        [destruct (h nv)|];
        destruct (SwitchPrimitiveOptions.onClick (props c)); cbn in Hin;
        intuition discriminate.
  - subst r. rewrite (SwitchInteraction.onClick_final c event s G).
    destruct (state.isControlled c s) eqn:Hctl; [reflexivity|].
    unfold state.checked at 1. unfold state.isControlled in *.
    destruct (SwitchPrimitiveOptions.checked (props c)); [discriminate|].
    reflexivity.
Qed.

(** X2. A switch whose resolved [readOnly] or [disabled] is true ignores
    every sequence of clicks: each click only has its default action
    prevented, and the store, with it the resolved checked state, is
    after the sequence what it was before. *)
Theorem suppressed_switch_is_inert (c : Instance) (s : Store) :
  truthy (state.readOnly c s) || truthy (state.disabled c s) = true ->
  (forall e, onClick c e s = (Normal tt, s, [EPreventDefault]))
  /\ (forall es, afterClicks c es s = s)
  /\ (forall es, state.checked c (afterClicks c es s) = state.checked c s).
Proof.
  intro G.
  assert (H1 : forall e, onClick c e s = (Normal tt, s, [EPreventDefault])).
  { intro e. apply SwitchInteraction.onClick_suppressed. exact G. }
  assert (H2 : forall es, afterClicks c es s = s).
  { induction es as [|e es IH]; [reflexivity|].
    unfold afterClicks in *. cbn [fold_left]. rewrite (H1 e). exact IH. }
  repeat split; auto. intro es. rewrite H2. reflexivity.
Qed.

(** X3. A switch that is given a [checked] prop never writes its store:
    after every sequence of clicks the store is unchanged and the
    resolved checked state is still [!!props.checked]; and whenever such a
    click calls [onChange], it passes the negation of the prop. *)
Theorem controlled_switch_keeps_state (c : Instance) (s : Store) (b : bool) :
  SwitchPrimitiveOptions.checked (props c) = Some b ->
  (forall es, afterClicks c es s = s)
  /\ (forall es, state.checked c (afterClicks c es s) = b)
  /\ (forall e, writes (trace (onClick c e s)) = [])
  /\ (forall e x, In (ECall ItemOnChange (AChecked x)) (trace (onClick c e s)) ->
                  x = negb b).
Proof.
  intro Hc.
  assert (Hctl : forall s1, state.isControlled c s1 = true)
    by (intro s1; unfold state.isControlled; now rewrite Hc).
  assert (Hchk : forall s1, state.checked c s1 = b).
  { intro s1. unfold state.checked. rewrite Hctl, Hc.
    destruct b; reflexivity. }
  assert (H1 : forall es, afterClicks c es s = s).
  { induction es as [|e es IH]; [reflexivity|].
    unfold afterClicks in *. cbn [fold_left].
    rewrite (proj1 (SwitchInteraction.onClick_writes c e s (Hctl s))).
    exact IH. }
  repeat split; auto.
  - intro e. exact (proj2 (SwitchInteraction.onClick_writes c e s (Hctl s))).
  - intros e x Hin.
    destruct (truthy (state.readOnly c s) || truthy (state.disabled c s)) eqn:G.
    + rewrite (SwitchInteraction.onClick_suppressed c e s G) in Hin.
      cbn in Hin. intuition discriminate.
    + destruct (onClick_run c e s G) as [Ht _]. rewrite Ht, Hctl, Hchk in Hin.
      cbn [app] in Hin.
      destruct (SwitchPrimitiveOptions.onChange (props c)) as [h|];
        [destruct (h (negb b))|];
        destruct (SwitchPrimitiveOptions.onClick (props c)); cbn in Hin;
        intuition (try discriminate; congruence).
Qed.

End SwitchExtras.

Module SwitchFocusFacts.
Import Switch SwitchFocus.

Lemma onClick_keeps_focus (c : Instance) (e : MouseEvent) (b : bool)
    (s : Store) :
  final (onClick c e (setState_isFocused b s))
  = setState_isFocused b (final (onClick c e s)).
Proof.
  destruct (truthy (state.readOnly c s) || truthy (state.disabled c s)) eqn:G.
  - rewrite (SwitchInteraction.onClick_suppressed c e s G).
    rewrite (SwitchInteraction.onClick_suppressed
               c e (setState_isFocused b s) G).
    reflexivity.
  - rewrite (SwitchInteraction.onClick_final c e s G).
    rewrite (SwitchInteraction.onClick_final c e (setState_isFocused b s) G).
    unfold state.isControlled.
    destruct (SwitchPrimitiveOptions.checked (props c)); reflexivity.
Qed.

Lemma afterClicks_keeps_focus (c : Instance) (es : list MouseEvent) (b : bool)
    (s : Store) :
  afterClicks c es (setState_isFocused b s)
  = setState_isFocused b (afterClicks c es s).
Proof.
  revert s. induction es as [|e es IH]; intro s; [reflexivity|].
  unfold afterClicks in *. cbn [fold_left].
  rewrite onClick_keeps_focus. apply IH.
Qed.

Lemma onClick_isFocused (c : Instance) (e : MouseEvent) (s : Store) :
  isFocused (final (onClick c e s)) = isFocused s.
Proof.
  destruct (truthy (state.readOnly c s) || truthy (state.disabled c s)) eqn:G.
  - rewrite (SwitchInteraction.onClick_suppressed c e s G). reflexivity.
  - rewrite (SwitchInteraction.onClick_final c e s G).
    destruct (state.isControlled c s); reflexivity.
Qed.

Lemma focus_step (fh : FocusHandlers) (e : FocusEvent) (s : Store) :
  snd (fst (onFocus fh e s)) = setState_isFocused true s
  /\ snd (fst (onBlur fh e s)) = setState_isFocused false s.
Proof.
  unfold onFocus, onBlur, thenCall.
  destruct (formOnFocus fh), (formOnBlur fh); split; reflexivity.
Qed.

(** X4. Clicks and focus changes do not interfere.  After any interleaving
    of clicks, focus events and blur events, the [_checked] field is what
    the clicks alone would have made it, and [isFocused] is what the focus
    and blur events alone make it: the last of them decides, and the state
    before the sequence stays when there is none.  Neither depends on what
    the focus callbacks of the form control do. *)
Theorem clicks_and_focus_are_independent (c : Instance) (fh : FocusHandlers)
    (evs : list UserEvent) (s : Store) :
  _checked (run c fh evs s) = _checked (afterClicks c (clicksOf evs) s)
  /\ isFocused (run c fh evs s) = focusAfter evs (isFocused s)
  /\ state.checked c (run c fh evs s)
     = state.checked c (afterClicks c (clicksOf evs) s)
  /\ state.data_focus c (run c fh evs s)
     = (if focusAfter evs (isFocused s) then Some "" else None).
Proof.
  assert (H : _checked (run c fh evs s)
              = _checked (afterClicks c (clicksOf evs) s)
              /\ isFocused (run c fh evs s) = focusAfter evs (isFocused s)).
  { revert s. induction evs as [|ev evs IH]; intro s; [split; reflexivity|].
    unfold run in *. cbn [fold_left].
    destruct (IH (step c fh s ev)) as [IH1 IH2]. rewrite IH1, IH2.
    destruct ev as [e|e|e]; cbn [step clicksOf focusAfter].
    - split; [reflexivity|]. rewrite onClick_isFocused. reflexivity.
    - rewrite (proj1 (focus_step fh e s)), afterClicks_keeps_focus.
      split; reflexivity.
    - rewrite (proj2 (focus_step fh e s)), afterClicks_keeps_focus.
      split; reflexivity. }
  destruct H as [H1 H2]. repeat split; auto.
  - unfold state.checked, state.isControlled. rewrite H1. reflexivity.
  - unfold state.data_focus. rewrite H2. reflexivity.
Qed.

(** X5. The markers and attributes of the switch agree with its resolved
    state.  Each [data-*] marker is the empty string when the state of its
    name is truthy and is absent otherwise; [data-checked] is present
    exactly when [aria-checked] is emitted as [true]; [data-disabled] is
    present exactly when [aria-disabled] is emitted.  The button always
    carries an [id] and a [value]: the value is the [value] prop, or
    ["on"] when there is none. *)
Theorem switch_markers_agree (c : Instance) (s : Store) :
  let marker (b : bool) := if b then Some "" else None in
  (state.data_checked c s = marker (state.checked c s)
   /\ state.data_focus c s = marker (isFocused s)
   /\ state.data_required c s = marker (truthy (state.required c s))
   /\ state.data_disabled c s = marker (truthy (state.disabled c s))
   /\ state.data_invalid c s = marker (truthy (state.invalid c s))
   /\ state.data_readonly c s = marker (truthy (state.readOnly c s)))
  /\ (state.data_checked c s <> None
      <-> emitted (buttonAttrs c s) "aria-checked" = Some (ABool true))
  /\ (state.data_disabled c s <> None
      <-> emitted (buttonAttrs c s) "aria-disabled" <> None)
  /\ emitted (buttonAttrs c s) "id" <> None
  /\ emitted (buttonAttrs c s) "value"
     = Some (AStr (match SwitchPrimitiveOptions.value (props c) with
                   | Some v => v
                   | None => "on"
                   end)).
Proof.
  cbn zeta. split; [repeat split|].
  unfold buttonAttrs. cbn [emitted String.eqb Ascii.eqb Bool.eqb].
  unfold state.data_checked, state.data_disabled, state.aria_disabled,
    state.id, state.value.
  repeat split.
  - destruct (state.checked c s); [reflexivity|intro H; now elim H].
  - destruct (state.checked c s); [discriminate|intro H; discriminate H].
  - destruct (truthy (state.disabled c s)); cbn; [discriminate|intro H; now elim H].
  - destruct (truthy (state.disabled c s)); cbn; [discriminate|intro H; now elim H].
  - destruct (FormControl.id (formControlProps c)); cbn; discriminate.
  - destruct (SwitchPrimitiveOptions.value (props c)); reflexivity.
Qed.

End SwitchFocusFacts.

(* ------------------------------------------------------------------------- *)
(** ** More on the checkbox: group test, flags, markers, sequences *)
(* ------------------------------------------------------------------------- *)

Module CheckboxExtras.
Import Checkbox CheckboxSequences.

Section WithNumber.
Context {N : Number}.

Lemma grouped_checked (c : Instance) (s : Store)
    (ctx : CheckboxGroup.Context) (vs : list prim) :
  checkboxGroupContext c = Some ctx ->
  CheckboxGroup.value (CheckboxGroup.state ctx) = Some vs ->
  forall b, checked c s = Some b ->
  (b = true <-> In (String_ (CheckboxOptions.value (inputProps c))) (stringForms vs)).
Proof.
  intros H1 H2 b Hb. unfold checked in Hb. rewrite H1, H2 in Hb.
  injection Hb as <-. unfold stringForms. apply ResolutionFacts.some_spec.
Qed.

Lemma grouped_checked_bool (c : Instance) (s : Store)
    (ctx : CheckboxGroup.Context) (vs : list prim) :
  checkboxGroupContext c = Some ctx ->
  CheckboxGroup.value (CheckboxGroup.state ctx) = Some vs ->
  exists b, checked c s = Some b.
Proof.
  intros H1 H2. unfold checked. rewrite H1, H2. eexists. reflexivity.
Qed.

(** X6. The group test at its edges.  In a group whose collection is
    empty no item is checked.  An item without a [value] prop is compared
    under the string ["undefined"]: it is checked exactly when some member
    of the collection has that string form, in particular when the
    collection contains the string ["undefined"]. *)
Theorem group_test_edges (c : Instance) (s : Store)
    (ctx : CheckboxGroup.Context) (vs : list prim) :
  checkboxGroupContext c = Some ctx ->
  CheckboxGroup.value (CheckboxGroup.state ctx) = Some vs ->
  (vs = [] -> checked c s = Some false)
  /\ (CheckboxOptions.value (inputProps c) = None ->
      (checked c s = Some true <-> In "undefined" (stringForms vs)))
  /\ (CheckboxOptions.value (inputProps c) = None ->
      In (PStr "undefined") vs -> checked c s = Some true).
Proof.
  intros H1 H2.
  destruct (@grouped_checked_bool c s ctx vs H1 H2) as [b Hb].
  pose proof (@grouped_checked c s ctx vs H1 H2 b Hb) as Hspec.
  split; [|split].
  - intros ->. rewrite Hb. f_equal. destruct b; [|reflexivity].
    exfalso. exact (proj1 Hspec eq_refl).
  - intro Hv. rewrite Hv in Hspec. split.
    + intro Hc. rewrite Hb in Hc. injection Hc as ->.
      apply Hspec. reflexivity.
    + intro Hin. rewrite Hb. f_equal. apply Hspec. exact Hin.
  - intros Hv Hin. rewrite Hb. f_equal. apply Hspec. rewrite Hv.
    unfold stringForms. apply in_map_iff. exists (PStr "undefined").
    split; [reflexivity|exact Hin].
Qed.

(** X7. Only the set of string forms in the group's collection matters.
    If every string form of one collection occurs in another, an item
    checked under the first is checked under the second (adding values
    never unchecks an item); and two collections with the same string
    forms, whatever their order and repetitions, check the same items. *)
Theorem group_test_is_monotone (c1 c2 : Instance) (s1 s2 : Store)
    (ctx1 ctx2 : CheckboxGroup.Context) (vs ws : list prim) :
  checkboxGroupContext c1 = Some ctx1 ->
  CheckboxGroup.value (CheckboxGroup.state ctx1) = Some vs ->
  checkboxGroupContext c2 = Some ctx2 ->
  CheckboxGroup.value (CheckboxGroup.state ctx2) = Some ws ->
  String_ (CheckboxOptions.value (inputProps c1))
  = String_ (CheckboxOptions.value (inputProps c2)) ->
  incl (stringForms vs) (stringForms ws) ->
  (checked c1 s1 = Some true -> checked c2 s2 = Some true)
  /\ (incl (stringForms ws) (stringForms vs) -> checked c1 s1 = checked c2 s2).
Proof.
  intros H1 H2 H3 H4 Hv Hincl.
  destruct (@grouped_checked_bool c1 s1 ctx1 vs H1 H2) as [b1 Hb1].
  destruct (@grouped_checked_bool c2 s2 ctx2 ws H3 H4) as [b2 Hb2].
  pose proof (@grouped_checked c1 s1 ctx1 vs H1 H2 b1 Hb1) as S1.
  pose proof (@grouped_checked c2 s2 ctx2 ws H3 H4 b2 Hb2) as S2.
  rewrite Hv in S1. rewrite Hb1, Hb2.
  assert (Hup : b1 = true -> b2 = true).
  { intro E. apply S2, Hincl, S1, E. }
  split.
  - intro E. injection E as E. f_equal. exact (Hup E).
  - intro Hback. f_equal. destruct b1, b2; auto.
    + symmetry. exact (Hup eq_refl).
    + apply S1, Hback, S2. reflexivity.
Qed.



(** X9. A checkbox whose own [readOnly] or [disabled] prop is true is
    inert: every change event only has its default action prevented, no
    callback is invoked, and after any sequence of events, or of user
    toggles, the internal state is what it was. *)
Theorem own_flag_makes_checkbox_inert (c : Instance) (s : Store) :
  guard c = true ->
  (forall e, onChange c e s = (Normal tt, s, [EPreventDefault]))
  /\ (forall evs, afterChanges c evs s = s)
  /\ (forall n, afterToggles c n s = s).
Proof.
  intro G.
  assert (H1 : forall e s1, onChange c e s1 = (Normal tt, s1, [EPreventDefault])).
  { intros e s1. apply CheckboxInteraction.onChange_suppressed. exact G. }
  repeat split.
  - intro e. apply H1.
  - induction evs as [|e evs IH]; [reflexivity|].
    unfold afterChanges in *. cbn [fold_left]. rewrite H1. exact IH.
  - induction n as [|n IH]; [reflexivity|].
    cbn [afterToggles]. rewrite IH. unfold afterToggle. rewrite H1.
    reflexivity.
Qed.

(** X10. A flag that the form-control props define, as [true] or as
    [false], is the resolved flag, and the group's flag is not consulted:
    an item with [disabled={false}] in a disabled group is not disabled.
    Only a flag that the form-control props leave undefined is inherited
    from the group, and it stays undefined outside a group.  The same
    holds for [required], [invalid] and [readOnly]. *)
Theorem defined_flag_shadows_group (c : Instance) :
  (forall b, FormControl.disabled (formControlProps c) = Some b ->
             disabled c = Some b)
  /\ (forall b, FormControl.required (formControlProps c) = Some b ->
                required c = Some b)
  /\ (forall b, FormControl.invalid (formControlProps c) = Some b ->
                invalid c = Some b)
  /\ (forall b, FormControl.readOnly (formControlProps c) = Some b ->
                readOnly c = Some b)
  /\ (FormControl.disabled (formControlProps c) = None ->
      disabled c = groupState c CheckboxGroup.disabled)
  /\ (FormControl.required (formControlProps c) = None ->
      required c = groupState c CheckboxGroup.required)
  /\ (FormControl.invalid (formControlProps c) = None ->
      invalid c = groupState c CheckboxGroup.invalid)
  /\ (FormControl.readOnly (formControlProps c) = None ->
      readOnly c = groupState c CheckboxGroup.readOnly)
  /\ (checkboxGroupContext c = None ->
      disabled c = FormControl.disabled (formControlProps c)
      /\ required c = FormControl.required (formControlProps c)
      /\ invalid c = FormControl.invalid (formControlProps c)
      /\ readOnly c = FormControl.readOnly (formControlProps c)).
Proof.
  unfold disabled, required, invalid, readOnly, groupState.
  repeat match goal with |- _ /\ _ => split end;
    try (intros b Hb; rewrite Hb; reflexivity);
    try (intro H0; rewrite H0; reflexivity).
  intro Hg. rewrite Hg. cbn [chain].
  repeat match goal with |- _ /\ _ => split end;
    match goal with |- ?x ?? None = ?x => destruct x; reflexivity end.
Qed.


End WithNumber.
End CheckboxExtras.

(* ------------------------------------------------------------------------- *)
(** ** The further theorems at sample instances *)
(* ------------------------------------------------------------------------- *)

Module MoreWitnesses.

(** X1 at an uncontrolled, unchecked switch with both callbacks. *)
Lemma click_reports_negation_witness :
  let c := MoreSamples.switchWith None (Some Samples.returns)
             (Some Samples.returns) None in
  calls (trace (Switch.onClick c Samples.click (Switch.createStore c)))
  = [ ECall ItemOnChange (Switch.AChecked true);
      ECall ItemOnClick (Switch.AMouse Samples.click) ].
Proof.
  exact (proj1
    (@SwitchExtras.click_reports_negation
       (MoreSamples.switchWith None (Some Samples.returns)
          (Some Samples.returns) None)
       (Switch.createStore
          (MoreSamples.switchWith None (Some Samples.returns)
             (Some Samples.returns) None))
       Samples.click eq_refl)).
Defined.

(** X2 at a switch inside a read-only form control. *)
Lemma suppressed_switch_is_inert_witness :
  let c := MoreSamples.switchWith None (Some Samples.returns) None
             (Some MoreSamples.readOnlyForm) in
  Switch.afterClicks c [Samples.click; Samples.click] (Switch.createStore c)
  = Switch.createStore c.
Proof.
  exact (proj1 (proj2
    (@SwitchExtras.suppressed_switch_is_inert
       (MoreSamples.switchWith None (Some Samples.returns) None
          (Some MoreSamples.readOnlyForm))
       (Switch.createStore
          (MoreSamples.switchWith None (Some Samples.returns) None
             (Some MoreSamples.readOnlyForm)))
       eq_refl))
    [Samples.click; Samples.click]).
Defined.

(** X3 at a switch with [checked={true}]. *)
Lemma controlled_switch_keeps_state_witness :
  let c := MoreSamples.switchWith (Some true) (Some Samples.returns) None
             None in
  Switch.state.checked c
    (Switch.afterClicks c [Samples.click] (Switch.createStore c))
  = true.
Proof.
  exact (proj1 (proj2
    (@SwitchExtras.controlled_switch_keeps_state
       (MoreSamples.switchWith (Some true) (Some Samples.returns) None None)
       (Switch.createStore
          (MoreSamples.switchWith (Some true) (Some Samples.returns) None
             None))
       true eq_refl))
    [Samples.click]).
Defined.

(** X6 at an item without a value in a group that holds ["undefined"]. *)
Lemma group_test_edges_witness :
  Checkbox.checked
    (Samples.checkbox (Samples.checkboxProps None None None None)
       (Some (Samples.group (Some [PStr "undefined"]) None None)))
    {| Checkbox.checkedState := false |}
  = Some true.
Proof.
  refine (proj2 (proj2
    (@CheckboxExtras.group_test_edges IntegerNumber
       (Samples.checkbox (Samples.checkboxProps None None None None)
          (Some (Samples.group (Some [PStr "undefined"]) None None)))
       {| Checkbox.checkedState := false |}
       (Samples.group (Some [PStr "undefined"]) None None)
       [PStr "undefined"] eq_refl eq_refl)) eq_refl _).
  simpl. left. reflexivity.
Defined.

(** X7 at the collections [["a", "b"]] and [["b", 3, "a", "a"]]. *)
Lemma group_test_is_monotone_witness :
  Checkbox.checked
    (Samples.checkbox
       (Samples.checkboxProps (Some (PStr "a")) None None None)
       (Some (Samples.group
                (Some [PStr "b"; @PNum IntegerNumber 3%Z; PStr "a"; PStr "a"])
                None None)))
    {| Checkbox.checkedState := false |}
  = Some true.
Proof.
  refine (proj1
    (@CheckboxExtras.group_test_is_monotone IntegerNumber
       (Samples.checkbox
          (Samples.checkboxProps (Some (PStr "a")) None None None)
          (Some (Samples.group (Some [PStr "a"; PStr "b"]) None None)))
       (Samples.checkbox
          (Samples.checkboxProps (Some (PStr "a")) None None None)
          (Some (Samples.group
                   (Some [PStr "b"; @PNum IntegerNumber 3%Z; PStr "a";
                          PStr "a"])
                   None None)))
       {| Checkbox.checkedState := false |}
       {| Checkbox.checkedState := false |}
       (Samples.group (Some [PStr "a"; PStr "b"]) None None)
       (Samples.group
          (Some [PStr "b"; @PNum IntegerNumber 3%Z; PStr "a"; PStr "a"])
          None None)
       [PStr "a"; PStr "b"]
       [PStr "b"; @PNum IntegerNumber 3%Z; PStr "a"; PStr "a"]
       eq_refl eq_refl eq_refl eq_refl eq_refl _) eq_refl).
  intros x Hx. simpl in Hx. simpl.
  destruct Hx as [<-|[<-|[]]]; auto.
Defined.


(** X9 at a checkbox with [readOnly={true}]. *)
Lemma own_flag_makes_checkbox_inert_witness :
  let c := Samples.checkbox
             (MoreSamples.flaggedProps (Some (PStr "a")) None (Some true))
             None in
  CheckboxSequences.afterChanges c
    [ {| Checkbox.target_checked := true |} ] (Checkbox.createSignal c)
  = Checkbox.createSignal c.
Proof.
  exact (proj1 (proj2
    (@CheckboxExtras.own_flag_makes_checkbox_inert IntegerNumber
       (Samples.checkbox
          (MoreSamples.flaggedProps (Some (PStr "a")) None (Some true)) None)
       (Checkbox.createSignal
          (Samples.checkbox
             (MoreSamples.flaggedProps (Some (PStr "a")) None (Some true))
             None))
       eq_refl))
    [ {| Checkbox.target_checked := true |} ]).
Defined.

(** X10 at an item with [disabled={false}] in a disabled group. *)
Lemma defined_flag_shadows_group_witness :
  Checkbox.disabled
    (Samples.checkbox
       (MoreSamples.flaggedProps (Some (PStr "a")) (Some false) None)
       (Some (MoreSamples.disabledGroup (Some []) (Some true))))
  = Some false.
Proof.
  exact (proj1
    (@CheckboxExtras.defined_flag_shadows_group IntegerNumber
       (Samples.checkbox
          (MoreSamples.flaggedProps (Some (PStr "a")) (Some false) None)
          (Some (MoreSamples.disabledGroup (Some []) (Some true)))))
    false eq_refl).
Defined.

End MoreWitnesses.
